(** * unicore-go: pagination, context helper, interceptor chain and sanitizer

    A shallow embedding of the Go package [unicore]:
    - [unicore.go]: [GetTotalPages], [WithPaginationScope], the error
      sentinels and [GetUserClaims];
    - the middleware file: [UnaryTenantInterceptor], [UnaryTokenInterceptor],
      [LoggingUnaryInterceptor], [sanitizeRequest] and [sanitize].

    Go's fixed-width integers are integers of [Z] with the wrap-around
    written out; packages outside the repository (connect, gorm, reflect,
    zap, oidc, net/http) are modelled at the interface the code uses. *)

From Stdlib Require Import ZArith Lia Ascii String List Bool.
From stdpp Require Import base decidable option list gmap strings.

Import ListNotations.
Set Warnings "-register-all".
Local Open Scope string_scope.
Local Open Scope list_scope.
Local Open Scope Z_scope.

(** ** Machine integers *)

Module GoInt.

Definition min_int32 : Z := - 2 ^ 31.
Definition max_int32 : Z := 2 ^ 31 - 1.
Definition min_int64 : Z := - 2 ^ 63.
Definition max_int64 : Z := 2 ^ 63 - 1.

Definition in_int32 (z : Z) : Prop := min_int32 <= z <= max_int32.
Definition in_int64 (z : Z) : Prop := min_int64 <= z <= max_int64.

(** Two's complement reduction of a mathematical integer to [w] bits. *)
Definition wrap (w : Z) (z : Z) : Z := (z + 2 ^ (w - 1)) mod 2 ^ w - 2 ^ (w - 1).

Definition int32 (z : Z) : Z := wrap 32 z.
Definition int64 (z : Z) : Z := wrap 64 z.

(** Go's [/] on integers truncates toward zero. *)
Definition div (a b : Z) : Z := Z.quot a b.

End GoInt.

(** ** types.go *)

Record PagedResult (T : Type) := mkPagedResult { Items : T; Total : Z }.
Arguments mkPagedResult {T} _ _.
Arguments Items {T} _.
Arguments Total {T} _.

(** ** unicore.go: paged results *)

(** [func (p *PagedResult[T]) GetTotalPages(limit int32) int32]; the receiver
    is a pointer, [None] is the nil receiver. *)
Definition GetTotalPages {T} (p : option (PagedResult T)) (limit : Z) : Z :=
  match p with
  | None => 0
  | Some p =>
      if limit <=? 0 then 0
      else GoInt.int32
             (GoInt.div (GoInt.int64 (GoInt.int64 (Total p + limit) - 1)) limit)
  end.

Definition NewPagedResult {T} (total : Z) (items : T) : option (PagedResult T) :=
  Some {| Items := items; Total := total |}.

(** The ceiling of [a / b] for [b > 0], as the specification words it. *)
Definition ceil_div (a b : Z) : Z := - ((- a) / b).

(** ** unicore.go: pagination scope *)

(** [commonv1.SortDirection], a generated protobuf enum (an open int32). *)
Inductive SortDirection :=
| SortDirection_SORT_DIRECTION_UNSPECIFIED
| SortDirection_SORT_DIRECTION_ASC
| SortDirection_SORT_DIRECTION_DESC
| SortDirection_unknown (n : Z).

(** [commonv1.PageRequest]; its getters are nil-safe. *)
Record PageRequest := mkPageRequest {
  Page : Z;
  Limit : Z;
  Sort : string;
  Direction : SortDirection
}.

Definition GetPage (p : option PageRequest) : Z :=
  match p with Some r => Page r | None => 0 end.
Definition GetLimit (p : option PageRequest) : Z :=
  match p with Some r => Limit r | None => 0 end.
Definition GetSort (p : option PageRequest) : string :=
  match p with Some r => Sort r | None => "" end.
Definition GetDirection (p : option PageRequest) : SortDirection :=
  match p with Some r => Direction r | None => SortDirection_SORT_DIRECTION_UNSPECIFIED end.

Module Gorm.

(** The calls the package makes on a [*gorm.DB] chain, in order. *)
Inductive Clause :=
| Limit (n : Z)
| Offset (n : Z)
| Order (value : string).

Definition DB := list Clause.

Definition db_Limit (db : DB) (n : Z) : DB := db ++ [Limit n].
Definition db_Offset (db : DB) (n : Z) : DB := db ++ [Offset n].
Definition db_Order (db : DB) (value : string) : DB := db ++ [Order value].

End Gorm.

(** [WithPaginationScope(pagination)(db)]: the scope applied to a query. *)
Definition WithPaginationScope (pagination : option PageRequest) (db : Gorm.DB) : Gorm.DB :=
  let page := GetPage pagination in
  let page := if page <=? 0 then 1 else page in
  let limit := GetLimit pagination in
  let limit := if limit <=? 0 then 20 else limit in
  let offset := GoInt.int32 (GoInt.int32 (page - 1) * limit) in
  let db := Gorm.db_Offset (Gorm.db_Limit db limit) offset in
  let sort := GetSort pagination in
  let direction := GetDirection pagination in
  let sort := if String.eqb sort "" then "created_at" else sort in
  let order :=
    match direction with
    | SortDirection_SORT_DIRECTION_ASC => "asc"
    | SortDirection_SORT_DIRECTION_DESC => "desc"
    | _ => "desc"
    end in
  Gorm.db_Order db (String.append sort (String.append " " order)).

(** The Page Request defaults of the specification. *)
Definition effective_page (page : Z) : Z := if page <=? 0 then 1 else page.
Definition effective_limit (limit : Z) : Z := if limit <=? 0 then 20 else limit.
Definition effective_sort (sort : string) : string :=
  if String.eqb sort "" then "created_at" else sort.
Definition effective_direction (d : SortDirection) : string :=
  match d with SortDirection_SORT_DIRECTION_ASC => "asc" | _ => "desc" end.

(** ** unicore.go: errors *)

Module Connect.

Inductive Code :=
| CodeCanceled | CodeUnknown | CodeInvalidArgument | CodeDeadlineExceeded
| CodeNotFound | CodeAlreadyExists | CodePermissionDenied
| CodeResourceExhausted | CodeFailedPrecondition | CodeAborted
| CodeOutOfRange | CodeUnimplemented | CodeInternal | CodeUnavailable
| CodeDataLoss | CodeUnauthenticated.

Definition Code_String (c : Code) : string :=
  match c with
  | CodeCanceled => "canceled"
  | CodeUnknown => "unknown"
  | CodeInvalidArgument => "invalid_argument"
  | CodeDeadlineExceeded => "deadline_exceeded"
  | CodeNotFound => "not_found"
  | CodeAlreadyExists => "already_exists"
  | CodePermissionDenied => "permission_denied"
  | CodeResourceExhausted => "resource_exhausted"
  | CodeFailedPrecondition => "failed_precondition"
  | CodeAborted => "aborted"
  | CodeOutOfRange => "out_of_range"
  | CodeUnimplemented => "unimplemented"
  | CodeInternal => "internal"
  | CodeUnavailable => "unavailable"
  | CodeDataLoss => "data_loss"
  | CodeUnauthenticated => "unauthenticated"
  end.

End Connect.

(** A Go [error]: a plain error ([errors.New], [fmt.Errorf] without [%w]) or
    a [*connect.Error] made by [connect.NewError]. *)
Inductive error :=
| errors_New (text : string)
| connect_NewError (c : Connect.Code) (underlying : error).

(** [err.Error()]. *)
Fixpoint Error (e : error) : string :=
  match e with
  | errors_New text => text
  | connect_NewError c underlying =>
      let message := Error underlying in
      if String.eqb message "" then Connect.Code_String c
      else String.append (Connect.Code_String c) (String.append ": " message)
  end.

(** [connect.CodeOf(err)]. *)
Definition CodeOf (e : error) : Connect.Code :=
  match e with
  | connect_NewError c _ => c
  | errors_New _ => Connect.CodeUnknown
  end.

(** [fmt.Errorf(prefix + "%v", err)]. *)
Definition fmt_Errorf (prefix : string) (err : error) : error :=
  errors_New (String.append prefix (Error err)).

Definition ContextKeyUser : string := "UserClaimsKey".
Definition XTenantKey : string := "x-tenant-id".

Definition ErrMissingTenantHeader : error :=
  connect_NewError Connect.CodeInvalidArgument (errors_New "x-tenant-id is required in the header").
Definition ErrFailedParsingTokenClaims : error :=
  connect_NewError Connect.CodeInvalidArgument (errors_New "token claims could not be parsed").
Definition ErrInvalidToken : error :=
  connect_NewError Connect.CodeUnauthenticated (errors_New "invalid token").
Definition ErrMissingOrInvalidToken : error :=
  connect_NewError Connect.CodeUnauthenticated (errors_New "missing or invalid token").

(** ** types.go: claims *)

Record RealmAccess := mkRealmAccess { RealmAccess_Roles : list string }.
Record AccountRoles := mkAccountRoles { AccountRoles_Roles : list string }.
Record ResourceAccess := mkResourceAccess { Account : AccountRoles }.

(** [jwt.RegisteredClaims] (golang-jwt v4). *)
Record RegisteredClaims := mkRegisteredClaims {
  Issuer : string;
  Subject : string;
  Audience : list string;
  ExpiresAt : option Z;
  NotBefore : option Z;
  IssuedAt : option Z;
  ID : string
}.

Record UserAuthClaims := mkUserAuthClaims {
  Exp : Z;
  Iat : Z;
  Jti : string;
  Iss : string;
  Aud : list string;
  Id : string;
  Typ : string;
  Azp : string;
  Sid : string;
  Acr : string;
  AllowedOrigins : list string;
  RealmAccess_ : RealmAccess;
  ResourceAccess_ : ResourceAccess;
  Scope : string;
  EmailVerified : bool;
  Organization : list string;
  Name : string;
  PreferredUsername : string;
  GivenName : string;
  FamilyName : string;
  Email : string;
  Registered : RegisteredClaims
}.

(** ** context.Context *)

(** The dynamic values stored behind [any] in a context: a [string], a
    [*UserAuthClaims] ([None] is the nil pointer of that type), or a value of
    some other type. The nil interface is [None : option dyn]. *)
Inductive dyn :=
| any_string (s : string)
| any_UserAuthClaims (p : option UserAuthClaims)
| any_other (type_name : string).

(** Context keys are compared with [==] on interface values: equal dynamic
    type and equal value. The package's keys are of type [string]. *)
Inductive Key :=
| Key_string (s : string)
| Key_other (type_name : string) (repr : string).

Definition Key_eqb (a b : Key) : bool :=
  match a, b with
  | Key_string x, Key_string y => String.eqb x y
  | Key_other t x, Key_other u y => String.eqb t u && String.eqb x y
  | _, _ => false
  end.

Inductive Context :=
| Background
| WithValue (parent : Context) (key : Key) (val : option dyn).

(** [ctx.Value(key)]: the innermost binding wins, nil when there is none. *)
Fixpoint Context_Value (ctx : Context) (key : Key) : option dyn :=
  match ctx with
  | Background => None
  | WithValue parent k val => if Key_eqb k key then val else Context_Value parent key
  end.

(** The result of running Go code that may panic. *)
Inductive Outcome (A : Type) :=
| Returned (a : A)
| Panicked (reason : string).
Arguments Returned {A} _.
Arguments Panicked {A} _.

(** [helper.GetUserClaims(ctx)]: the single-value type assertion of
    [ctx.Value(ContextKeyUser)] to a pointer to [UserAuthClaims]. *)
Definition GetUserClaims (ctx : Context) : Outcome (option UserAuthClaims) :=
  match Context_Value ctx (Key_string ContextKeyUser) with
  | Some (any_UserAuthClaims userClaims) => Returned userClaims
  | Some (any_string _) =>
      Panicked "interface conversion: interface {} is string, not *unicore.UserAuthClaims"
  | Some (any_other _) =>
      Panicked "interface conversion: interface {} is not *unicore.UserAuthClaims"
  | None =>
      Panicked "interface conversion: interface {} is nil, not *unicore.UserAuthClaims"
  end.

(** ** Code that may panic, over a state *)

(** A computation over a state [S] that returns or panics. *)
Definition M (S A : Type) : Type := S -> Outcome A * S.

Definition ret {S A} (a : A) : M S A := fun s => (Returned a, s).

Definition bind {S A B} (m : M S A) (k : A -> M S B) : M S B :=
  fun s =>
    match m s with
    | (Returned a, s') => k a s'
    | (Panicked reason, s') => (Panicked reason, s')
    end.

Definition panic {S A} (reason : string) : M S A := fun s => (Panicked reason, s).

Declare Scope go_scope.
Delimit Scope go_scope with go.
Notation "x <- m ;; k" := (bind m (fun x => k))
  (at level 100, m at next level, right associativity) : go_scope.
Notation "m ;; k" := (bind m (fun _ => k))
  (at level 100, right associativity) : go_scope.
Local Open Scope go_scope.

(** ** strings and reflect *)

Definition is_upper (c : ascii) : bool :=
  let n := nat_of_ascii c in (65 <=? n)%nat && (n <=? 90)%nat.

Definition lower (c : ascii) : ascii :=
  if is_upper c then ascii_of_nat (nat_of_ascii c + 32) else c.

(** [strings.ToLower] on the ASCII identifiers that name struct fields. *)
Fixpoint strings_ToLower (s : string) : string :=
  match s with
  | EmptyString => EmptyString
  | String c rest => String (lower c) (strings_ToLower rest)
  end.

(** Names all of whose bytes are ASCII. On these names [strings_ToLower] is
    [strings.ToLower] and the export test below is Go's. On names with other
    letters Go folds case and tests the first letter by the Unicode tables,
    which are not modelled: what is stated about field names is stated for
    ASCII names. *)
Definition is_ascii (c : ascii) : bool := (nat_of_ascii c <? 128)%nat.

Fixpoint ascii_name (s : string) : bool :=
  match s with
  | EmptyString => true
  | String c rest => is_ascii c && ascii_name rest
  end.

Module Reflect.

Inductive Kind :=
| KBool | KInt | KFloat | KString | KPtr | KSlice | KMap | KInterface | KStruct.

Definition Kind_eqb (a b : Kind) : bool :=
  match a, b with
  | KBool, KBool | KInt, KInt | KFloat, KFloat | KString, KString
  | KPtr, KPtr | KSlice, KSlice | KMap, KMap | KInterface, KInterface
  | KStruct, KStruct => true
  | _, _ => false
  end.

(** [reflect.Type]: the types of request and response payloads. Integer
    and float widths are not told apart; [sanitize] never looks at them. *)
Inductive GoType :=
| TBool
| TInt
| TFloat
| TString
| TPtr (elem : GoType)
| TSlice (elem : GoType)
| TMap (key elem : GoType)
| TInterface
| TStruct (name : string) (fields : list (string * GoType)).

Definition Type_Kind (t : GoType) : Kind :=
  match t with
  | TBool => KBool
  | TInt => KInt
  | TFloat => KFloat
  | TString => KString
  | TPtr _ => KPtr
  | TSlice _ => KSlice
  | TMap _ _ => KMap
  | TInterface => KInterface
  | TStruct _ _ => KStruct
  end.

(** Type identity. *)
Fixpoint GoType_eqb (a b : GoType) {struct a} : bool :=
  match a, b with
  | TBool, TBool | TInt, TInt | TFloat, TFloat | TString, TString
  | TInterface, TInterface => true
  | TPtr x, TPtr y => GoType_eqb x y
  | TSlice x, TSlice y => GoType_eqb x y
  | TMap k x, TMap l y => GoType_eqb k l && GoType_eqb x y
  | TStruct n fs, TStruct m gs =>
      String.eqb n m &&
      (fix fields_eqb (fs gs : list (string * GoType)) {struct fs} : bool :=
         match fs, gs with
         | [], [] => true
         | (fn, ft) :: fs', (gn, gt) :: gs' =>
             String.eqb fn gn && GoType_eqb ft gt && fields_eqb fs' gs'
         | _, _ => false
         end) fs gs
  | _, _ => false
  end.

(** Heap addresses: the cell a non-nil pointer points to. *)
Abbreviation loc := nat (only parsing).

(** A Go value together with its static type (what a [reflect.Value]
    holds). [None] is the nil pointer, slice, map or interface. *)
Inductive Value :=
| VBool (b : bool)
| VInt (n : Z)
| VFloat (bits : Z)
| VString (s : string)
| VPtr (elem : GoType) (target : option loc)
| VSlice (elem : GoType) (items : option (list Value))
| VMap (key elem : GoType) (entries : option (list (Value * Value)))
| VInterface (dynamic : option Value)
| VStruct (name : string) (fields : list (string * Value)).

(** [reflect.TypeOf] / [Value.Type]. *)
Fixpoint TypeOf (v : Value) : GoType :=
  match v with
  | VBool _ => TBool
  | VInt _ => TInt
  | VFloat _ => TFloat
  | VString _ => TString
  | VPtr elem _ => TPtr elem
  | VSlice elem _ => TSlice elem
  | VMap key elem _ => TMap key elem
  | VInterface _ => TInterface
  | VStruct name fields =>
      TStruct name (List.map (fun f => (fst f, TypeOf (snd f))) fields)
  end.

Definition Value_Kind (v : Value) : Kind := Type_Kind (TypeOf v).

(** [reflect.Zero]. *)
Fixpoint Zero (t : GoType) : Value :=
  match t with
  | TBool => VBool false
  | TInt => VInt 0
  | TFloat => VFloat 0
  | TString => VString ""
  | TPtr elem => VPtr elem None
  | TSlice elem => VSlice elem None
  | TMap key elem => VMap key elem None
  | TInterface => VInterface None
  | TStruct name fields =>
      VStruct name (List.map (fun f => (fst f, Zero (snd f))) fields)
  end.

(** A struct field is exported when its name starts with an upper-case
    letter, for ASCII names a letter of [A-Z]; [Value.CanInterface] is false
    on the unexported ones. *)
Definition IsExported (name : string) : bool :=
  match name with
  | String c _ => is_upper c
  | EmptyString => false
  end.

Definition CanInterface (field_name : string) : bool := IsExported field_name.

(** The heap: cell [l] holds the value a pointer [VPtr _ (Some l)] points
    to. Allocation appends a cell. *)
Abbreviation Heap := (list Value) (only parsing).

(** [reflect.New(t)]: a fresh cell holding the zero value of [t]. *)
Definition New (t : GoType) : M Heap loc :=
  fun h => (Returned (length h), h ++ [Zero t]).

(** Writing field [i] of the struct in cell [copied]. *)
Definition store_field (copied : loc) (i : nat) (x : Value) : M Heap unit :=
  fun h =>
    match h !! copied with
    | Some (VStruct name fs) =>
        match fs !! i with
        | Some (fname, _) =>
            (Returned tt, <[copied := VStruct name (<[i := (fname, x)]> fs)]> h)
        | None => (Panicked "reflect: Field index out of range", h)
        end
    | _ => (Panicked "reflect: call of reflect.Value.Field on non-struct Value", h)
    end.

(** [copied.Field(i).Set(x)] for a field of type [ft]: [x] must be
    assignable to [ft]. The destinations in this package are never filled
    from a value of another type that implements an interface, so
    assignability is type identity. *)
Definition Value_Set (copied : loc) (i : nat) (ft : GoType) (x : option Value) : M Heap unit :=
  match x with
  | None => panic "reflect: call of reflect.Value.Set on zero Value"
  | Some x =>
      if GoType_eqb (TypeOf x) ft then store_field copied i x
      else panic "reflect.Set: value is not assignable to the type of the field"
  end.

(** [copied.Field(i).SetString(s)]. *)
Definition Value_SetString (copied : loc) (i : nat) (s : string) : M Heap unit :=
  store_field copied i (VString s).

(** [rv.Elem()] of a non-nil pointer. *)
Definition Elem (l : loc) : M Heap Value :=
  fun h =>
    match h !! l with
    | Some rv => (Returned rv, h)
    | None => (Panicked "invalid memory address or nil pointer dereference", h)
    end.

End Reflect.

(** ** The sanitizer *)

Import Reflect.

(** A Go [interface{}] holding a payload: [None] is the nil interface. *)
Definition any : Type := option Value.

(** The body of the [for] loop of [sanitize] at field [i], named [fname] and
    holding [value]; [recur] is the recursive call of [sanitize] on
    [value.Interface()]. *)
Definition sanitize_field (recur : Value -> M Heap any)
    (sensitiveFields : gmap string unit) (copied : loc) (i : nat)
    (fname : string) (value : Value) : M Heap unit :=
  let field_Type := TypeOf value in
  let fieldName := strings_ToLower fname in
  if negb (CanInterface fname) then ret tt
  else
    match sensitiveFields !! fieldName with
    | Some _ =>
        if Kind_eqb (Type_Kind field_Type) KString
        then Value_SetString copied i "[REDACTED]"
        else Value_Set copied i field_Type (Some (Zero field_Type))
    | None =>
        if Kind_eqb (Type_Kind field_Type) KStruct
        then sanitized <- recur value ;; Value_Set copied i field_Type sanitized
        else Value_Set copied i field_Type (Some value)
    end.

(** [for i := 0; i < rt.NumField(); i++ { ... }], from field [i] on. *)
Fixpoint sanitize_loop (recur : Value -> M Heap any)
    (sensitiveFields : gmap string unit) (copied : loc) (i : nat)
    (fields : list (string * Value)) : M Heap unit :=
  match fields with
  | [] => ret tt
  | (fname, value) :: rest =>
      sanitize_field recur sensitiveFields copied i fname value ;;
      sanitize_loop recur sensitiveFields copied (S i) rest
  end.

(** [sanitize] from the test [rv.Kind() != reflect.Struct] on: [v] is the
    argument and [rv] what it denotes after the pointer was followed. *)
Fixpoint sanitize_from (sensitiveFields : gmap string unit) (v : any) (rv : Value)
    {struct rv} : M Heap any :=
  match rv with
  | VStruct name fields =>
      let rt := TypeOf rv in
      copied <- New rt ;;
      sanitize_loop (fun value => sanitize_from sensitiveFields (Some value) value)
        sensitiveFields copied 0%nat fields ;;
      ret (Some (VPtr rt (Some copied)))
  | _ => ret v
  end.

(** [func sanitize(v interface{}, sensitiveFields map[string]struct{}) interface{}] *)
Definition sanitize (v : any) (sensitiveFields : gmap string unit) : M Heap any :=
  match v with
  | None => ret None
  | Some (VPtr _ (Some l)) => rv <- Elem l ;; sanitize_from sensitiveFields v rv
  | Some rv => sanitize_from sensitiveFields v rv
  end.

(** [middleware.sanitizeRequest(req)]. *)
Definition sensitiveFields : gmap string unit :=
  <["password" := tt]> (<["token" := tt]> (<["secret" := tt]> (<["apikey" := tt]>
    (<["apiKey" := tt]> (<["auth" := tt]> ∅))))).

Definition sanitizeRequest (req : any) : M Heap any := sanitize req sensitiveFields.

Definition REDACTED : string := "[REDACTED]".

(** The copy [sanitize] builds, told field by field: an unexported field is
    left at the zero value of the fresh struct, a sensitive field is
    redacted, any other field is kept. *)
Definition zero_field (f : string * Value) : string * Value :=
  (fst f, Zero (TypeOf (snd f))).

Definition redact_field (sensitiveFields : gmap string unit) (f : string * Value)
  : string * Value :=
  if negb (IsExported (fst f)) then zero_field f
  else
    match sensitiveFields !! strings_ToLower (fst f) with
    | Some _ =>
        if Kind_eqb (Value_Kind (snd f)) KString then (fst f, VString REDACTED)
        else zero_field f
    | None => f
    end.

(** Structs all of whose field names are ASCII. *)
Definition ascii_fields (fields : list (string * Value)) : Prop :=
  forall gname x, In (gname, x) fields -> ascii_name gname = true.

(** The fields on which the loop of [sanitize] takes its recursive branch:
    exported, not sensitive, of struct kind. *)
Definition recursed_field (sensitiveFields : gmap string unit) (f : string * Value) : bool :=
  IsExported (fst f)
  && match sensitiveFields !! strings_ToLower (fst f) with Some _ => false | None => true end
  && Kind_eqb (Value_Kind (snd f)) KStruct.

(** ** net/http headers and connect requests *)

Module Http.

(** [textproto.validHeaderFieldByte]: the token characters of RFC 7230. *)
Definition validHeaderFieldByte (c : ascii) : bool :=
  let n := nat_of_ascii c in
  ((n =? 33) || ((35 <=? n) && (n <=? 39)) || (n =? 42) || (n =? 43)
   || (n =? 45) || (n =? 46) || ((48 <=? n) && (n <=? 57))
   || ((65 <=? n) && (n <=? 90)) || ((94 <=? n) && (n <=? 122))
   || (n =? 124) || (n =? 126))%nat.

Fixpoint all_valid (s : string) : bool :=
  match s with
  | EmptyString => true
  | String c rest => validHeaderFieldByte c && all_valid rest
  end.

Definition is_lower (c : ascii) : bool :=
  let n := nat_of_ascii c in (97 <=? n)%nat && (n <=? 122)%nat.

Definition upper_of (c : ascii) : ascii := ascii_of_nat (nat_of_ascii c - 32).

(** Upper case for the first letter and after each dash, lower case
    elsewhere. *)
Fixpoint canonicalize (upper : bool) (s : string) : string :=
  match s with
  | EmptyString => EmptyString
  | String c rest =>
      let c' := if upper && is_lower c then upper_of c
                else if negb upper && is_upper c then lower c
                else c in
      String c' (canonicalize (Ascii.eqb c' "-") rest)
  end.

(** [textproto.CanonicalMIMEHeaderKey]: keys that hold a byte which is not
    a token character are returned unchanged. *)
Definition CanonicalMIMEHeaderKey (s : string) : string :=
  if all_valid s then canonicalize true s else s.

(** [http.Header], a [map[string][]string]. *)
Definition Header := gmap string (list string).

(** [h.Get(key)]: the first value under the canonical key, or [""]. *)
Definition Header_Get (h : Header) (key : string) : string :=
  match h !! CanonicalMIMEHeaderKey key with
  | Some (v :: _) => v
  | _ => ""
  end.

End Http.

(** [connect.Spec]: the field the package reads. *)
Record Spec := mkSpec { Procedure : string }.

(** [connect.AnyRequest]: its methods [Header()] and [Spec()], and the Go
    value behind the interface that reflection sees. *)
Record AnyRequest := mkRequest {
  Request_Header : Http.Header;
  Request_Spec : Spec;
  Request_value : Value
}.

(** [slices.Contains(routes, fullMethod)]. *)
Fixpoint slices_Contains (routes : list string) (x : string) : bool :=
  match routes with
  | [] => false
  | r :: rest => String.eqb r x || slices_Contains rest x
  end.

(** ** The interceptor chain *)

Module Zap.
Inductive Level := InfoLevel | ErrorLevel.
Inductive Field :=
| String (key val : string)
| Any (key : string) (val : any)
| Error (err : error)
| Duration (key : string) (d : Z).
End Zap.

Section Chain.

(** [W] is the state of the world outside the process (identity provider,
    network, clock); [IDToken] is [*oidc.IDToken]. *)
Context {W IDToken : Type}.

(** What a call does that an observer outside the interceptor can see. *)
Inductive Event :=
| EvExtractHeaderToken (req : AnyRequest)
| EvVerify (ctx : Context) (token : string)
| EvClaims (idToken : IDToken)
| EvNext (ctx : Context) (req : AnyRequest)
| EvLog (level : Zap.Level) (msg : string) (fields : list Zap.Field).

Record State := mkState {
  heap : Heap;
  world : W;
  trace : list Event
}.

(** The methods of [Authenticator] the interceptors call, with
    [GetVerifier().Verify] and the [Claims] method of the verified token.
    [Claims] returns what the claims pointer holds after decoding. *)
Record Authenticator := mkAuthenticator {
  ExtractHeaderToken : AnyRequest -> W -> (string * option error) * W;
  Verify : Context -> string -> W -> (IDToken * option error) * W;
  Claims : IDToken -> W -> (UserAuthClaims * option error) * W
}.

(** [grpcAuthMiddleware]; the logger writes to the trace, [clock] is
    [time.Now] in nanoseconds. *)
Record grpcAuthMiddleware := mkMiddleware {
  authenticator : Authenticator;
  clock : W -> Z
}.

(** [connect.UnaryFunc]; the response is the Go value behind
    [connect.AnyResponse]. *)
Definition UnaryFunc : Type := Context -> AnyRequest -> M State (any * option error).

Definition emit (ev : Event) : M State unit :=
  fun s => (Returned tt, mkState (heap s) (world s) (trace s ++ [ev])).

(** A call to a collaborator outside the process. *)
Definition call {A} (ev : Event) (f : W -> A * W) : M State A :=
  fun s =>
    let '(a, w) := f (world s) in
    (Returned a, mkState (heap s) w (trace s ++ [ev])).

Definition on_heap {A} (m : M Heap A) : M State A :=
  fun s => let '(r, h) := m (heap s) in (r, mkState h (world s) (trace s)).

Definition time_Now (middleware : grpcAuthMiddleware) : M State Z :=
  fun s => (Returned (clock middleware (world s)), s).

Definition time_Since (middleware : grpcAuthMiddleware) (start : Z) : M State Z :=
  now <- time_Now middleware ;; ret (now - start).

Definition loggR_Info (msg : string) (fields : list Zap.Field) : M State unit :=
  emit (EvLog Zap.InfoLevel msg fields).

Definition loggR_Error (msg : string) (fields : list Zap.Field) : M State unit :=
  emit (EvLog Zap.ErrorLevel msg fields).

(** [next(ctx, req)]. *)
Definition invoke (next : UnaryFunc) (ctx : Context) (req : AnyRequest)
  : M State (any * option error) :=
  emit (EvNext ctx req) ;; next ctx req.

Definition UnaryTenantInterceptor (next : UnaryFunc) : UnaryFunc :=
  fun ctx req =>
    let tenantID := Http.Header_Get (Request_Header req) XTenantKey in
    if String.eqb tenantID "" then ret (None, Some ErrMissingTenantHeader)
    else
      let newCtx := WithValue ctx (Key_string XTenantKey) (Some (any_string tenantID)) in
      invoke next newCtx req.

Definition UnaryTokenInterceptor (middleware : grpcAuthMiddleware)
    (routes : list string) (next : UnaryFunc) : UnaryFunc :=
  fun ctx req =>
    let fullMethod := Procedure (Request_Spec req) in
    if slices_Contains routes fullMethod then invoke next ctx req
    else
      r <- call (EvExtractHeaderToken req)
             (ExtractHeaderToken (authenticator middleware) req) ;;
      let '(token, err) := r in
      match err with
      | Some err =>
          ret (None, Some (connect_NewError Connect.CodeUnauthenticated
                             (fmt_Errorf "missing or invalid token: " err)))
      | None =>
          r <- call (EvVerify ctx token) (Verify (authenticator middleware) ctx token) ;;
          let '(idToken, err) := r in
          match err with
          | Some err =>
              ret (None, Some (connect_NewError Connect.CodeUnauthenticated
                                 (fmt_Errorf "invalid token: " err)))
          | None =>
              r <- call (EvClaims idToken) (Claims (authenticator middleware) idToken) ;;
              let '(claims, err) := r in
              match err with
              | Some err =>
                  ret (None, Some (connect_NewError Connect.CodeInternal
                                     (fmt_Errorf "failed to parse token claims: " err)))
              | None =>
                  let newCtx :=
                    WithValue ctx (Key_string ContextKeyUser)
                      (Some (any_UserAuthClaims (Some claims))) in
                  invoke next newCtx req
              end
          end
      end.

Definition LoggingUnaryInterceptor (middleware : grpcAuthMiddleware)
    (next : UnaryFunc) : UnaryFunc :=
  fun ctx request =>
    start <- time_Now middleware ;;
    let fullMethod := Procedure (Request_Spec request) in
    sanitizedReq <- on_heap (sanitizeRequest (Some (Request_value request))) ;;
    loggR_Info "gRPC request received"
      [Zap.String "method" fullMethod; Zap.Any "request" sanitizedReq] ;;
    r <- invoke next ctx request ;;
    let '(resp, err) := r in
    duration <- time_Since middleware start ;;
    match err with
    | Some err =>
        loggR_Error "gRPC request failed"
          [Zap.String "method" fullMethod; Zap.Error err;
           Zap.Duration "duration" duration]
    | None =>
        loggR_Info "gRPC request completed"
          [Zap.String "method" fullMethod; Zap.Any "response" resp;
           Zap.Duration "duration" duration]
    end ;;
    ret (resp, err).

End Chain.

(** ** unicore.go: the context helper and the tenant scope *)

(** A call of [log.Printf] with a format and its one operand. *)
Record LogCall := mkLogCall { log_format : string; log_operand : option dyn }.

(** [helper.GetTenant(ctx)], with the log calls it makes.
    [FromIncomingContext] is [metadata.FromIncomingContext] of gRPC: the
    incoming metadata of the call, a [map[string][]string], when there is
    one. *)
Definition GetTenant
    (FromIncomingContext : Context -> option (gmap string (list string)))
    (ctx : Context) : (string * option error) * list LogCall :=
  let not_found :=
    (("", Some (errors_New
                  "could not extract tenant id: x-tenant-id not found in context or metadata")),
     []) in
  let from_metadata :=
    match FromIncomingContext ctx with
    | Some md =>
        match md !! XTenantKey with
        | Some (first :: _) =>
            if String.eqb first "" then not_found
            else ((first, None),
                  [mkLogCall "Received X-Tenant-Id from gRPC metadata: %s"
                     (Some (any_string first))])
        | _ => not_found
        end
    | None => not_found
    end in
  match Context_Value ctx (Key_string XTenantKey) with
  | Some (any_string id) =>
      if String.eqb id "" then from_metadata
      else ((id, None),
            [mkLogCall "Retrieved tenant ID from context: %s" (Some (any_string id))])
  | _ => from_metadata
  end.

(** [WithTenantScope(ctx)(db)], with the log call it makes. [db_Where] is
    the [Where] method of [*gorm.DB], taking the condition and its one
    argument. *)
Definition WithTenantScope {DB : Type}
    (db_Where : DB -> string -> option dyn -> DB)
    (ctx : Context) (db : DB) : DB * list LogCall :=
  let tenantId := Context_Value ctx (Key_string XTenantKey) in
  (db_Where db "tenant_id = ?" tenantId,
   [mkLogCall "👮 [WithTenantScope]: TenantId: %s" tenantId]).

Section Helper.

Context {W IDToken : Type}.

(** [contextHelper] and [NewContextHelper]. *)
Record contextHelper := mkContextHelper {
  helper_authenticator : @Authenticator W IDToken
}.

Definition NewContextHelper (authenticator : @Authenticator W IDToken) : contextHelper :=
  {| helper_authenticator := authenticator |}.

(** [helper.GetAccessToken(request)]. *)
Definition GetAccessToken (helper : contextHelper) (request : AnyRequest)
  : M (@State W IDToken) (string * option error) :=
  call (EvExtractHeaderToken request)
    (ExtractHeaderToken (helper_authenticator helper) request).

End Helper.

(** ** Concrete calls *)

Module Examples.

Definition LoginRequestT : GoType :=
  TStruct "LoginRequest" [("Username", TString); ("Password", TString)].

Definition loginMsg : Value :=
  VStruct "LoginRequest" [("Username", VString "bob"); ("Password", VString "hunter2")].

(** The envelope [connect.Request[LoginRequest]]: the message pointer is
    its one exported field. *)
Definition RequestT : GoType :=
  TStruct "Request"
    [("Msg", TPtr LoginRequestT);
     ("spec", TStruct "Spec" [("Procedure", TString)]);
     ("header", TMap TString (TSlice TString));
     ("method", TString)].

Definition loginEnvelope : Value :=
  VStruct "Request"
    [("Msg", VPtr LoginRequestT (Some 0%nat));
     ("spec", VStruct "Spec" [("Procedure", VString "/auth.v1.AuthService/Login")]);
     ("header", VMap TString (TSlice TString) None);
     ("method", VString "POST")].

Definition LoginResponseT : GoType :=
  TStruct "LoginResponse" [("Token", TString); ("ExpiresIn", TInt)].

Definition loginReply : Value :=
  VStruct "LoginResponse" [("Token", VString "s3cr3t"); ("ExpiresIn", VInt 3600)].

Definition ResponseT : GoType :=
  TStruct "Response"
    [("Msg", TPtr LoginResponseT);
     ("header", TMap TString (TSlice TString));
     ("trailer", TMap TString (TSlice TString))].

Definition loginResponse : Value :=
  VStruct "Response"
    [("Msg", VPtr LoginResponseT (Some 2%nat));
     ("header", VMap TString (TSlice TString) None);
     ("trailer", VMap TString (TSlice TString) None)].

(** Cells 0 and 1 hold the request, cells 2 and 3 the response the handler
    will return. *)
Definition heap0 : Heap := [loginMsg; loginEnvelope; loginReply; loginResponse].

Definition headers (tenant : list string) : Http.Header :=
  <["X-Tenant-Id" := tenant]> (<["Content-Type" := ["application/proto"]]> ∅).

Definition loginRequest (tenant : list string) : AnyRequest :=
  {| Request_Header := headers tenant;
     Request_Spec := mkSpec "/auth.v1.AuthService/Login";
     Request_value := VPtr RequestT (Some 1%nat) |}.

Definition noTenantRequest : AnyRequest :=
  {| Request_Header := <["Content-Type" := ["application/proto"]]> ∅;
     Request_Spec := mkSpec "/auth.v1.AuthService/Login";
     Request_value := VPtr RequestT (Some 1%nat) |}.

(** The world is a clock reading; every call to a collaborator takes one
    tick. *)
Definition tick {A} (a : A) : Z -> A * Z := fun w => (a, w + 1).

Definition noClaims : UserAuthClaims :=
  {| Exp := 0; Iat := 0; Jti := ""; Iss := ""; Aud := []; Id := ""; Typ := "";
     Azp := ""; Sid := ""; Acr := ""; AllowedOrigins := [];
     RealmAccess_ := mkRealmAccess []; ResourceAccess_ := mkResourceAccess (mkAccountRoles []);
     Scope := ""; EmailVerified := false; Organization := []; Name := "";
     PreferredUsername := ""; GivenName := ""; FamilyName := ""; Email := "";
     Registered := mkRegisteredClaims "" "" [] None None None "" |}.

Definition bobClaims : UserAuthClaims :=
  {| Exp := 1800000000; Iat := 1700000000; Jti := "j1"; Iss := "https://idp";
     Aud := ["account"]; Id := "u-1"; Typ := "Bearer"; Azp := "web"; Sid := "s1";
     Acr := "1"; AllowedOrigins := []; RealmAccess_ := mkRealmAccess ["user"];
     ResourceAccess_ := mkResourceAccess (mkAccountRoles []);
     Scope := "openid"; EmailVerified := true; Organization := []; Name := "Bob";
     PreferredUsername := "bob"; GivenName := "Bob"; FamilyName := "B";
     Email := "bob@example.org";
     Registered := mkRegisteredClaims "https://idp" "u-1" ["account"] None None None "j1" |}.

(** No bearer token in the request. *)
Definition authNoToken : @Authenticator Z string :=
  {| ExtractHeaderToken := fun _ => tick ("", Some ErrMissingOrInvalidToken);
     Verify := fun _ token => tick (token, None);
     Claims := fun _ => tick (bobClaims, None) |}.

(** A token that verifies and whose claims cannot be decoded. *)
Definition authBadClaims : @Authenticator Z string :=
  {| ExtractHeaderToken := fun _ => tick ("eyJ", None);
     Verify := fun _ token => tick (token, None);
     Claims := fun _ =>
       tick (noClaims, Some (errors_New "json: cannot unmarshal string into Go value")) |}.

Definition middlewareNoToken : grpcAuthMiddleware := mkMiddleware authNoToken (fun w => w).
Definition middlewareBadClaims : grpcAuthMiddleware := mkMiddleware authBadClaims (fun w => w).

(** A handler that returns the response of cell 3. *)
Definition loginHandler : @UnaryFunc Z string :=
  fun _ _ s =>
    (Returned (Some (VPtr ResponseT (Some 3%nat)), None),
     mkState (heap s) (world s + 5) (trace s)).

Definition state0 : @State Z string := mkState heap0 100 [].

(** A payload with a struct nested by value. *)
Definition nestedByValue : Value :=
  VStruct "Outer"
    [("Id", VInt 1); ("Inner", VStruct "Inner" [("Password", VString "hunter2")])].

(** A payload with an unexported sibling field. *)
Definition withUnexported : Value :=
  VStruct "LoginRequest"
    [("Username", VString "bob"); ("Password", VString "hunter2"); ("state", VInt 7)].

End Examples.

Module MoreExamples.

(** A bearer token that verifies and decodes into the claims of bob. *)
Definition authOk : @Authenticator Z string :=
  {| ExtractHeaderToken := fun _ => Examples.tick ("eyJ", None);
     Verify := fun _ token => Examples.tick (token, None);
     Claims := fun _ => Examples.tick (Examples.bobClaims, None) |}.

(** A bearer token that the identity provider rejects. *)
Definition authExpired : @Authenticator Z string :=
  {| ExtractHeaderToken := fun _ => Examples.tick ("eyJ", None);
     Verify := fun _ token =>
       Examples.tick (token, Some (errors_New "oidc: token is expired"));
     Claims := fun _ => Examples.tick (Examples.bobClaims, None) |}.

Definition middlewareOk : grpcAuthMiddleware := mkMiddleware authOk (fun w => w).
Definition middlewareExpired : grpcAuthMiddleware := mkMiddleware authExpired (fun w => w).

(** A handler that panics. *)
Definition panickingHandler : @UnaryFunc Z string :=
  fun _ _ s => (Panicked "runtime error: index out of range", s).

(** Incoming gRPC metadata that carries the tenant of the call. *)
Definition tenantMetadata : gmap string (list string) :=
  <["x-tenant-id" := ["acme"]]> (<["user-agent" := ["grpc-go/1.75.1"]]> ∅).

Definition fromMetadata (md : option (gmap string (list string)))
  : Context -> option (gmap string (list string)) := fun _ => md.

(** The call log of a query as the list of its conditions. *)
Definition recordWhere (db : list (string * option dyn)) (query : string)
    (arg : option dyn) : list (string * option dyn) :=
  db ++ [(query, arg)].

(** A payload with sensitive fields of several types. *)
Definition credentials : Value :=
  VStruct "Credentials"
    [("User", VString "bob"); ("Token", VString "s3cr3t"); ("ApiKey", VInt 42);
     ("Secret", VPtr TString (Some 0%nat)); ("Auth", VBool true); ("cache", VInt 9)].

(** A payload whose field names differ from a sensitive name by case or by
    a suffix. *)
Definition apiCredentials : Value :=
  VStruct "ApiCredentials"
    [("APIKEY", VString "k-1"); ("ApiKeyId", VString "id-7"); ("Auth", VString "basic")].



End MoreExamples.

(** * Properties *)

(** ** Machine integers *)

Module GoIntFacts.
Import GoInt.

Lemma int32_id z : in_int32 z -> int32 z = z.
Proof.
  unfold in_int32, min_int32, max_int32, int32, wrap. intros H.
  rewrite Z.mod_small; lia.
Qed.

Lemma int64_id z : in_int64 z -> int64 z = z.
Proof.
  unfold in_int64, min_int64, max_int64, int64, wrap. intros H.
  rewrite Z.mod_small; lia.
Qed.

(** Wrapping an intermediate sum does not change the wrapped result. *)
Lemma int64_sub_idem a b : int64 (int64 a - b) = int64 (a - b).
Proof.
  unfold int64, wrap.
  replace ((a + 2 ^ (64 - 1)) mod 2 ^ 64 - 2 ^ (64 - 1) - b + 2 ^ (64 - 1))
    with ((a + 2 ^ (64 - 1)) mod 2 ^ 64 + - b) by lia.
  rewrite Z.add_mod_idemp_l by lia.
  f_equal. f_equal. lia.
Qed.

(** For [a >= 0] and [b > 0] the truncated quotient of [a + b - 1] by [b]
    is the ceiling of [a / b]. *)
Lemma div_ceil a b : 0 <= a -> 0 < b -> div (a + b - 1) b = ceil_div a b.
Proof.
  intros Ha Hb. unfold div, ceil_div.
  rewrite Z.quot_div_nonneg by lia.
  pose proof (Z.div_mod (a + b - 1) b ltac:(lia)) as E.
  pose proof (Z.mod_pos_bound (a + b - 1) b Hb) as B.
  set (q := (a + b - 1) / b) in *.
  assert (- a / b = - q) as ->; [| lia].
  symmetry. apply (Z.div_unique_pos (- a) b (- q) (b * q - a)); lia.
Qed.

Lemma ceil_div_nonneg a b : 0 <= a -> 0 < b -> 0 <= ceil_div a b.
Proof.
  intros Ha Hb. rewrite <- div_ceil by lia. unfold div.
  apply Z.quot_pos; lia.
Qed.

(** A ceiling that fits in 32 bits bounds the dividend. *)
Lemma ceil_div_bound a b :
  0 <= a -> 0 < b -> ceil_div a b <= max_int32 -> a <= b * max_int32.
Proof.
  intros Ha Hb H. unfold ceil_div in H.
  pose proof (Z.div_mod (- a) b ltac:(lia)) as E.
  pose proof (Z.mod_pos_bound (- a) b Hb) as B.
  nia.
Qed.

End GoIntFacts.

(** ** Paged results *)

(** C9, as amended. For a paged result with [0 <= total] and an int32
    [limit]: [GetTotalPages] is 0 when [limit <= 0], and is the ceiling of
    [total / limit] when [limit > 0] and that ceiling fits the int32 result;
    it is 5 for total 95 and limit 20, 0 for total 0 and limit 20, and 0 for
    total 1 and limit 0. *)
Theorem GetTotalPages_ceil (T : Type) (p : PagedResult T) (limit : Z) :
  0 <= Total p -> GoInt.in_int64 (Total p) -> GoInt.in_int32 limit ->
  (limit <= 0 -> GetTotalPages (Some p) limit = 0) /\
  (0 < limit -> ceil_div (Total p) limit <= GoInt.max_int32 ->
   GetTotalPages (Some p) limit = ceil_div (Total p) limit) /\
  GetTotalPages (NewPagedResult 95 (Items p)) 20 = 5 /\
  GetTotalPages (NewPagedResult 0 (Items p)) 20 = 0 /\
  GetTotalPages (NewPagedResult 1 (Items p)) 0 = 0.
Proof.
  intros Hpos H64 H32. repeat split; try reflexivity.
  - intros Hle. unfold GetTotalPages.
    destruct (Z.leb_spec limit 0); [reflexivity | lia].
  - intros Hlt Hfit. unfold GetTotalPages.
    destruct (Z.leb_spec limit 0); [lia |].
    pose proof (GoIntFacts.ceil_div_bound _ _ Hpos Hlt Hfit) as Hb.
    pose proof (GoIntFacts.ceil_div_nonneg _ _ Hpos Hlt) as Hc.
    rewrite GoIntFacts.int64_sub_idem.
    rewrite GoIntFacts.int64_id.
    + rewrite GoIntFacts.div_ceil by lia.
      apply GoIntFacts.int32_id.
      unfold GoInt.in_int32, GoInt.min_int32, GoInt.max_int32 in *. lia.
    + unfold GoInt.in_int64, GoInt.in_int32, GoInt.min_int64, GoInt.max_int64,
        GoInt.min_int32, GoInt.max_int32 in *. nia.
Qed.

Lemma GetTotalPages_ceil_witness :
  GetTotalPages (Some (mkPagedResult tt 95)) 20 = ceil_div 95 20.
Proof.
  apply (GetTotalPages_ceil unit (mkPagedResult tt 95) 20); vm_compute;
    try split; congruence.
Defined.

(** C9 as stated fails: with total [2^32] and limit 1 the ceiling is
    [2^32], which the int32 result cannot hold; the conversion yields 0. *)
Lemma GetTotalPages_truncates :
  let p := mkPagedResult tt (2 ^ 32) in
  0 <= Total p /\ GoInt.in_int64 (Total p) /\ GoInt.in_int32 1 /\
  GetTotalPages (Some p) 1 = 0 /\
  ceil_div (Total p) 1 = 4294967296 /\
  GetTotalPages (Some p) 1 <> ceil_div (Total p) 1.
Proof. vm_compute. repeat split; congruence. Qed.

(** ** Pagination scope *)




(** ** Context helper *)

Lemma Value_WithValue_same ctx key val : Context_Value (WithValue ctx key val) key = val.
Proof.
  cbn. destruct key as [k | t k]; cbn.
  - now rewrite String.eqb_refl.
  - now rewrite !String.eqb_refl.
Qed.

(** C10. When the context holds no pointer to [UserAuthClaims] under the
    user-claims key, [GetUserClaims] panics; it returns, and then returns the
    stored pointer, exactly when such a value is stored. *)
Theorem GetUserClaims_panics_unless_stored (ctx : Context) :
  ((forall p, Context_Value ctx (Key_string ContextKeyUser) <> Some (any_UserAuthClaims p)) ->
   exists reason, GetUserClaims ctx = Panicked reason) /\
  (forall p, GetUserClaims ctx = Returned p <->
             Context_Value ctx (Key_string ContextKeyUser) = Some (any_UserAuthClaims p)).
Proof.
  unfold GetUserClaims. split.
  - intros Hno.
    destruct (Context_Value ctx (Key_string ContextKeyUser)) as [[s | p | t] |]; eauto.
    exfalso. now apply (Hno p).
  - intros p.
    destruct (Context_Value ctx (Key_string ContextKeyUser)) as [[s | q | t] |];
      split; intros H; try discriminate H; now inversion H.
Qed.

Lemma GetUserClaims_panics_unless_stored_witness :
  (exists reason, GetUserClaims (WithValue Background (Key_string XTenantKey)
                                   (Some (any_string "acme"))) = Panicked reason) /\
  GetUserClaims (WithValue Background (Key_string ContextKeyUser)
                   (Some (any_UserAuthClaims (Some Examples.bobClaims))))
  = Returned (Some Examples.bobClaims).
Proof.
  split.
  - apply (proj1 (GetUserClaims_panics_unless_stored _)).
    intros p. vm_compute. discriminate.
  - apply (proj2 (GetUserClaims_panics_unless_stored _)). reflexivity.
Defined.

(** ** The interceptor chain *)

Lemma slices_Contains_In routes x : slices_Contains routes x = true <-> In x routes.
Proof.
  induction routes as [| r routes IH]; cbn.
  - split; [discriminate | tauto].
  - rewrite orb_true_iff, IH. destruct (String.eqb_spec r x); intuition congruence.
Qed.

Lemma slices_Contains_not_In routes x : slices_Contains routes x = false <-> ~ In x routes.
Proof.
  rewrite <- slices_Contains_In. destruct (slices_Contains routes x); intuition congruence.
Qed.

Lemma tenant_key_canonical : Http.CanonicalMIMEHeaderKey XTenantKey = "X-Tenant-Id".
Proof. reflexivity. Qed.

Section ChainProperties.

Context {W IDToken : Type}.
Implicit Types (s : @State W IDToken) (next : @UnaryFunc W IDToken).
Implicit Types (middleware : @grpcAuthMiddleware W IDToken).

(** The state in which [next] starts when an interceptor invokes it from
    state [s]. *)
Lemma invoke_run next ctx req s :
  invoke next ctx req s =
  next ctx req (mkState (heap s) (world s) (trace s ++ [EvNext ctx req])).
Proof. reflexivity. Qed.

(** C1. When the tenant header is absent, has no value, or has an empty
    first value, the Tenant Interceptor returns [ErrMissingTenantHeader]
    and leaves the state as it was: [next] is not invoked, whatever it is.
    When the first value [tenantID] is not empty, the interceptor invokes
    [next] on the same request with a context in which the tenant key is
    bound to [tenantID], and returns what [next] returns. *)
Theorem UnaryTenantInterceptor_spec next ctx req s :
  ((Request_Header req !! "X-Tenant-Id" = None \/
    Request_Header req !! "X-Tenant-Id" = Some [] \/
    exists rest, Request_Header req !! "X-Tenant-Id" = Some ("" :: rest)) ->
   UnaryTenantInterceptor next ctx req s =
     (Returned (None, Some ErrMissingTenantHeader), s)) /\
  (forall tenantID rest,
      Request_Header req !! "X-Tenant-Id" = Some (tenantID :: rest) ->
      tenantID <> "" ->
      let newCtx := WithValue ctx (Key_string XTenantKey) (Some (any_string tenantID)) in
      Context_Value newCtx (Key_string XTenantKey) = Some (any_string tenantID) /\
      UnaryTenantInterceptor next ctx req s =
        next newCtx req (mkState (heap s) (world s) (trace s ++ [EvNext newCtx req]))).
Proof.
  unfold UnaryTenantInterceptor, Http.Header_Get. rewrite tenant_key_canonical.
  split.
  - intros [H | [H | [rest H]]]; rewrite H; reflexivity.
  - intros tenantID rest H Hne. cbv zeta. rewrite H.
    split; [apply Value_WithValue_same |].
    destruct (String.eqb_spec tenantID ""); [contradiction | reflexivity].
Qed.

(** C2. On a route of the exempt list the Token Interceptor hands the
    context and the request to [next] as they are, from a state in which
    nothing was extracted or verified: the world is untouched and the only
    new event is the invocation of [next]. This holds for every request,
    whatever its headers, and every authenticator. *)
Theorem UnaryTokenInterceptor_exempt middleware routes next ctx req s :
  In (Procedure (Request_Spec req)) routes ->
  UnaryTokenInterceptor middleware routes next ctx req s =
    next ctx req (mkState (heap s) (world s) (trace s ++ [EvNext ctx req])).
Proof.
  intros Hin. apply slices_Contains_In in Hin.
  unfold UnaryTokenInterceptor. rewrite Hin. reflexivity.
Qed.

(** C3. On a route that is not exempt, when extracting the header token
    fails with [err], the Token Interceptor returns no response and an
    error of code unauthenticated, the code of [ErrMissingOrInvalidToken],
    whose text starts with the text of that error; the only event is the
    extraction: the verifier and [next] are not invoked, and the world is
    as the extraction left it. *)
Theorem UnaryTokenInterceptor_missing_token
    middleware routes next ctx req s token err w' :
  ~ In (Procedure (Request_Spec req)) routes ->
  ExtractHeaderToken (authenticator middleware) req (world s) = ((token, Some err), w') ->
  exists e,
    UnaryTokenInterceptor middleware routes next ctx req s =
      (Returned (None, Some e),
       mkState (heap s) w' (trace s ++ [EvExtractHeaderToken req])) /\
    e = connect_NewError Connect.CodeUnauthenticated
          (errors_New (String.append "missing or invalid token: " (Error err))) /\
    CodeOf e = Connect.CodeUnauthenticated /\
    CodeOf e = CodeOf ErrMissingOrInvalidToken /\
    String.prefix (Error ErrMissingOrInvalidToken) (Error e) = true.
Proof.
  intros Hout Hex. apply slices_Contains_not_In in Hout.
  eexists. split; [| split; [reflexivity | repeat split]].
  unfold UnaryTokenInterceptor. rewrite Hout.
  unfold bind, call. rewrite Hex. reflexivity.
Qed.

(** When the verified token cannot be decoded into claims, the Token
    Interceptor returns an error of code internal; [next] is not
    invoked. *)
Lemma UnaryTokenInterceptor_claims_error
    middleware routes next ctx req s token w1 idToken w2 claims err w3 :
  ~ In (Procedure (Request_Spec req)) routes ->
  ExtractHeaderToken (authenticator middleware) req (world s) = ((token, None), w1) ->
  Verify (authenticator middleware) ctx token w1 = ((idToken, None), w2) ->
  Claims (authenticator middleware) idToken w2 = ((claims, Some err), w3) ->
  UnaryTokenInterceptor middleware routes next ctx req s =
    (Returned (None, Some (connect_NewError Connect.CodeInternal
                             (fmt_Errorf "failed to parse token claims: " err))),
     mkState (heap s) w3
       (trace s ++ [EvExtractHeaderToken req; EvVerify ctx token; EvClaims idToken])).
Proof.
  intros Hout Hex Hver Hcl. apply slices_Contains_not_In in Hout.
  unfold UnaryTokenInterceptor. rewrite Hout.
  unfold bind, call. rewrite Hex. cbn. rewrite Hver. cbn. rewrite Hcl. cbn.
  rewrite <- !app_assoc. reflexivity.
Qed.

(** After extraction, verification and decoding succeed, [next] runs with
    a context from which [GetUserClaims] returns the decoded claims. *)
Lemma UnaryTokenInterceptor_authenticated
    middleware routes next ctx req s token w1 idToken w2 claims w3 :
  ~ In (Procedure (Request_Spec req)) routes ->
  ExtractHeaderToken (authenticator middleware) req (world s) = ((token, None), w1) ->
  Verify (authenticator middleware) ctx token w1 = ((idToken, None), w2) ->
  Claims (authenticator middleware) idToken w2 = ((claims, None), w3) ->
  let newCtx := WithValue ctx (Key_string ContextKeyUser)
                  (Some (any_UserAuthClaims (Some claims))) in
  GetUserClaims newCtx = Returned (Some claims) /\
  UnaryTokenInterceptor middleware routes next ctx req s =
    next newCtx req
      (mkState (heap s) w3
         (trace s ++ [EvExtractHeaderToken req; EvVerify ctx token; EvClaims idToken;
                      EvNext newCtx req])).
Proof.
  intros Hout Hex Hver Hcl newCtx. apply slices_Contains_not_In in Hout.
  split; [reflexivity |].
  unfold UnaryTokenInterceptor. rewrite Hout.
  unfold bind, call. rewrite Hex. cbn. rewrite Hver. cbn. rewrite Hcl. cbn.
  rewrite <- !app_assoc. reflexivity.
Qed.

End ChainProperties.

Lemma UnaryTenantInterceptor_spec_witness :
  UnaryTenantInterceptor Examples.loginHandler Background Examples.noTenantRequest
    Examples.state0
  = (Returned (None, Some ErrMissingTenantHeader), Examples.state0) /\
  UnaryTenantInterceptor Examples.loginHandler Background (Examples.loginRequest [])
    Examples.state0
  = (Returned (None, Some ErrMissingTenantHeader), Examples.state0) /\
  UnaryTenantInterceptor Examples.loginHandler Background (Examples.loginRequest ["acme"])
    Examples.state0
  = Examples.loginHandler
      (WithValue Background (Key_string XTenantKey) (Some (any_string "acme")))
      (Examples.loginRequest ["acme"])
      (mkState Examples.heap0 100
         [EvNext (WithValue Background (Key_string XTenantKey) (Some (any_string "acme")))
            (Examples.loginRequest ["acme"])]).
Proof.
  split; [| split].
  - apply (proj1 (UnaryTenantInterceptor_spec _ _ _ _)). left. vm_compute. reflexivity.
  - apply (proj1 (UnaryTenantInterceptor_spec _ _ _ _)). right. left. vm_compute. reflexivity.
  - refine (proj2 (proj2 (UnaryTenantInterceptor_spec Examples.loginHandler Background
                             (Examples.loginRequest ["acme"]) Examples.state0)
                      "acme" [] _ _)).
    + vm_compute. reflexivity.
    + discriminate.
Defined.

Lemma UnaryTokenInterceptor_exempt_witness :
  UnaryTokenInterceptor Examples.middlewareNoToken
    ["/grpc.health.v1.Health/Check"; "/auth.v1.AuthService/Login"]
    Examples.loginHandler Background Examples.noTenantRequest Examples.state0
  = Examples.loginHandler Background Examples.noTenantRequest
      (mkState Examples.heap0 100 [EvNext Background Examples.noTenantRequest]).
Proof.
  apply (UnaryTokenInterceptor_exempt Examples.middlewareNoToken).
  cbn. right. left. reflexivity.
Defined.

Lemma UnaryTokenInterceptor_missing_token_witness :
  exists e,
    UnaryTokenInterceptor Examples.middlewareNoToken ["/grpc.health.v1.Health/Check"]
      Examples.loginHandler Background Examples.noTenantRequest Examples.state0
    = (Returned (None, Some e),
       mkState Examples.heap0 101 [EvExtractHeaderToken Examples.noTenantRequest]) /\
    e = connect_NewError Connect.CodeUnauthenticated
          (errors_New "missing or invalid token: unauthenticated: missing or invalid token") /\
    CodeOf e = Connect.CodeUnauthenticated /\
    CodeOf e = CodeOf ErrMissingOrInvalidToken /\
    String.prefix (Error ErrMissingOrInvalidToken) (Error e) = true.
Proof.
  apply (UnaryTokenInterceptor_missing_token Examples.middlewareNoToken
           ["/grpc.health.v1.Health/Check"] Examples.loginHandler Background
           Examples.noTenantRequest Examples.state0 "" ErrMissingOrInvalidToken 101).
  - cbn. intros [H | []]. discriminate H.
  - reflexivity.
Defined.

(** ** reflect: types and zero values *)

Lemma GoType_nested_ind (P : GoType -> Prop) :
  P TBool -> P TInt -> P TFloat -> P TString ->
  (forall e, P e -> P (TPtr e)) ->
  (forall e, P e -> P (TSlice e)) ->
  (forall k e, P k -> P e -> P (TMap k e)) ->
  P TInterface ->
  (forall n fs, Forall (fun f => P (snd f)) fs -> P (TStruct n fs)) ->
  forall t, P t.
Proof.
  intros HB HI HF HS HP HSl HM HIf HSt.
  fix IH 1.
  intros [ | | | | e | e | k e | | n fs];
    [exact HB | exact HI | exact HF | exact HS | apply HP, IH | apply HSl, IH
    | apply HM; apply IH | exact HIf | ].
  apply HSt. induction fs as [| [fn ft] fs IHfs]; constructor.
  - apply IH.
  - exact IHfs.
Qed.

Lemma GoType_eqb_refl t : GoType_eqb t t = true.
Proof.
  induction t as [ | | | | e IH | e IH | k e IHk IHe | | n fs IH]
    using GoType_nested_ind; cbn; auto.
  - now rewrite IHk, IHe.
  - rewrite String.eqb_refl. cbn.
    induction IH as [| [fn ft] fs Hft _ IHfs]; [reflexivity |].
    cbn in Hft. rewrite String.eqb_refl, Hft. exact IHfs.
Qed.

Lemma TypeOf_Zero t : TypeOf (Zero t) = t.
Proof.
  induction t as [ | | | | e IH | e IH | k e IHk IHe | | n fs IH]
    using GoType_nested_ind; cbn; auto.
  f_equal. rewrite List.map_map. cbn.
  induction IH as [| [fn ft] fs Hft _ IHfs]; [reflexivity |].
  cbn in *. now rewrite Hft, IHfs.
Qed.

Lemma Zero_TypeOf_struct name fields :
  Zero (TypeOf (VStruct name fields)) = VStruct name (List.map zero_field fields).
Proof. cbn. now rewrite List.map_map. Qed.

(** A pointer to a struct type is never assignable to that struct type. *)
Lemma ptr_not_assignable_to_struct t :
  Type_Kind t = KStruct -> GoType_eqb (TPtr t) t = false.
Proof. destruct t; cbn; congruence. Qed.

(** ** The sanitizer *)

Lemma insert_middle {A} (l1 l2 : list A) (x y : A) :
  <[length l1 := y]> (l1 ++ x :: l2) = l1 ++ y :: l2.
Proof.
  rewrite <- (Nat.add_0_r (length l1)) at 1. now rewrite insert_app_r.
Qed.

(** Writing field [length pre] of the struct in the last cell. *)
Lemma store_field_last (h : Heap) name pre fname y tl x :
  store_field (length h) (length pre) x (h ++ [VStruct name (pre ++ (fname, y) :: tl)])
  = (Returned tt, h ++ [VStruct name (pre ++ (fname, x) :: tl)]).
Proof.
  unfold store_field.
  rewrite (list_lookup_middle h [] _ (length h) eq_refl).
  rewrite (list_lookup_middle pre tl _ (length pre) eq_refl).
  now rewrite !insert_middle.
Qed.

(** One round of the loop on a field that is not recursed into. *)
Lemma sanitize_field_copy recur sf (h : Heap) name pre f tl :
  recursed_field sf f = false ->
  sanitize_field recur sf (length h) (length pre) (fst f) (snd f)
    (h ++ [VStruct name (pre ++ zero_field f :: tl)])
  = (Returned tt, h ++ [VStruct name (pre ++ redact_field sf f :: tl)]).
Proof.
  destruct f as [fname value]. unfold recursed_field, sanitize_field, redact_field,
    CanInterface, Value_Kind. cbn [fst snd].
  intros Hrec.
  destruct (IsExported fname); cbn [negb]; [| reflexivity].
  destruct (sf !! strings_ToLower fname) as [[] |].
  - destruct (Kind_eqb (Type_Kind (TypeOf value)) KString).
    + unfold Value_SetString, zero_field. cbn [fst snd]. apply store_field_last.
    + unfold Value_Set. rewrite TypeOf_Zero, GoType_eqb_refl.
      unfold zero_field. cbn [fst snd]. apply store_field_last.
  - cbn in Hrec. rewrite Hrec.
    unfold Value_Set. rewrite GoType_eqb_refl.
    unfold zero_field. cbn [fst snd]. apply store_field_last.
Qed.

Lemma sanitize_loop_copy recur sf (h : Heap) name rest :
  forall pre,
    forallb (fun f => negb (recursed_field sf f)) rest = true ->
    sanitize_loop recur sf (length h) (length pre) rest
      (h ++ [VStruct name (pre ++ List.map zero_field rest)])
    = (Returned tt, h ++ [VStruct name (pre ++ List.map (redact_field sf) rest)]).
Proof.
  induction rest as [| f rest IH]; intros pre Hok; [reflexivity |].
  cbn [forallb] in Hok. apply andb_true_iff in Hok as [Hf Hrest].
  apply negb_true_iff in Hf.
  destruct f as [fname value]. cbn [sanitize_loop List.map]. unfold bind.
  rewrite (sanitize_field_copy recur sf h name pre (fname, value) _ Hf).
  specialize (IH (pre ++ [redact_field sf (fname, value)]) Hrest).
  rewrite length_app, Nat.add_1_r, <- !app_assoc in IH. exact IH.
Qed.

(** A struct none of whose fields is recursed into is copied to a fresh
    cell, field by field as [redact_field] tells; no other cell changes. *)
Lemma sanitize_from_copy sf v name fields (h : Heap) :
  forallb (fun f => negb (recursed_field sf f)) fields = true ->
  sanitize_from sf v (VStruct name fields) h
  = (Returned (Some (VPtr (TypeOf (VStruct name fields)) (Some (length h)))),
     h ++ [VStruct name (List.map (redact_field sf) fields)]).
Proof.
  intros Hok. cbn [sanitize_from]. unfold bind at 1. unfold New.
  rewrite Zero_TypeOf_struct. unfold bind.
  rewrite (sanitize_loop_copy _ sf h name fields [] Hok). reflexivity.
Qed.

(** [sanitize] on a struct, given by value or through a non-nil pointer. *)
Lemma sanitize_struct_input sf v (h : Heap) name fields :
  (v = Some (VStruct name fields) \/
   exists e l, v = Some (VPtr e (Some l)) /\ h !! l = Some (VStruct name fields)) ->
  sanitize v sf h = sanitize_from sf v (VStruct name fields) h.
Proof.
  intros [-> | (e & l & -> & Hl)]; [reflexivity |].
  cbn [sanitize]. unfold bind, Elem. now rewrite Hl.
Qed.

(** The recursive call of [sanitize] on a field of struct kind is a call on
    the struct itself: there is no pointer to follow. *)
Lemma sanitize_struct_field sf value :
  Value_Kind value = KStruct ->
  sanitize (Some value) sf = sanitize_from sf (Some value) value.
Proof. destruct value; cbn; try discriminate; reflexivity. Qed.

(** X20. [sanitize] returns nil on nil, and returns its argument, with the heap
    as it was, when the argument is not a struct or a non-nil pointer to
    one. *)
Lemma sanitize_pass_through sf (h : Heap) :
  sanitize None sf h = (Returned None, h) /\
  (forall x, Value_Kind x <> KStruct -> Value_Kind x <> KPtr ->
             sanitize (Some x) sf h = (Returned (Some x), h)) /\
  (forall e, sanitize (Some (VPtr e None)) sf h = (Returned (Some (VPtr e None)), h)) /\
  (forall e l rv, h !! l = Some rv -> Value_Kind rv <> KStruct ->
                  sanitize (Some (VPtr e (Some l))) sf h
                  = (Returned (Some (VPtr e (Some l))), h)).
Proof.
  repeat split.
  - intros x Hs Hp. destruct x; cbn in *; try reflexivity; congruence.
  - intros e l rv Hl Hs. cbn [sanitize]. unfold bind, Elem. rewrite Hl.
    destruct rv; cbn in *; try reflexivity; congruence.
Qed.

(** Whatever the loop does, a struct sanitized by [sanitize_from] comes back
    as a pointer to that struct type, or not at all. *)
Lemma sanitize_from_struct_result sf v name fields (h : Heap) :
  match sanitize_from sf v (VStruct name fields) h with
  | (Returned r, _) =>
      r = Some (VPtr (TypeOf (VStruct name fields)) (Some (length h)))
  | (Panicked _, _) => True
  end.
Proof.
  cbn [sanitize_from]. unfold bind, New.
  destruct (sanitize_loop _ _ _ _ _ _) as [[[] | reason] h']; [reflexivity | exact I].
Qed.

(** A round of the loop on a field it recurses into panics: the sanitized
    copy is a pointer, the field a struct. *)
Lemma sanitize_field_recursed_panics sf copied i f (h : Heap) :
  recursed_field sf f = true ->
  exists reason h',
    sanitize_field (fun value => sanitize_from sf (Some value) value) sf copied i
      (fst f) (snd f) h = (Panicked reason, h').
Proof.
  destruct f as [fname value]. unfold recursed_field, sanitize_field, CanInterface,
    Value_Kind. cbn [fst snd].
  intros Hrec. apply andb_true_iff in Hrec as [Hrec Hk].
  apply andb_true_iff in Hrec as [He Hs].
  rewrite He. cbn [negb].
  destruct (sf !! strings_ToLower fname); [discriminate |].
  rewrite Hk. unfold bind.
  destruct value; try discriminate Hk.
  pose proof (sanitize_from_struct_result sf (Some (VStruct name fields)) name fields h) as Hr.
  destruct (sanitize_from sf (Some (VStruct name fields)) (VStruct name fields) h)
    as [[r | reason] h']; [| eauto].
  subst r. unfold Value_Set.
  change (TypeOf (VPtr (TypeOf (VStruct name fields)) (Some (length h))))
    with (TPtr (TypeOf (VStruct name fields))).
  rewrite ptr_not_assignable_to_struct by reflexivity.
  unfold panic. eauto.
Qed.

Lemma sanitize_loop_recursed_panics sf copied fields :
  forall i (h : Heap),
    existsb (recursed_field sf) fields = true ->
    exists reason h',
      sanitize_loop (fun value => sanitize_from sf (Some value) value) sf copied i
        fields h = (Panicked reason, h').
Proof.
  induction fields as [| f fields IH]; intros i h Hex; [discriminate |].
  cbn [existsb] in Hex. destruct f as [fname value]. cbn [sanitize_loop]. unfold bind.
  destruct (recursed_field sf (fname, value)) eqn:Hf.
  - destruct (sanitize_field_recursed_panics sf copied i (fname, value) h Hf)
      as (reason & h' & Hp).
    cbn [fst snd] in Hp. rewrite Hp. eauto.
  - cbn in Hex.
    destruct (sanitize_field _ sf copied i fname value h) as [[[] | reason] h']; [| eauto].
    apply IH, Hex.
Qed.

(** A struct with an exported, non-sensitive field of struct kind makes
    [sanitize] panic, given by value or through a pointer. *)
Lemma sanitize_nested_struct_panics sf v (h : Heap) name fields :
  (v = Some (VStruct name fields) \/
   exists e l, v = Some (VPtr e (Some l)) /\ h !! l = Some (VStruct name fields)) ->
  existsb (recursed_field sf) fields = true ->
  exists reason h', sanitize v sf h = (Panicked reason, h').
Proof.
  intros Hv Hex. rewrite (sanitize_struct_input sf v h name fields Hv).
  cbn [sanitize_from]. unfold bind at 1. unfold New. unfold bind.
  destruct (sanitize_loop_recursed_panics sf (length h) fields 0%nat
              (h ++ [Zero (TypeOf (VStruct name fields))]) Hex) as (reason & h' & ->).
  eauto.
Qed.

Lemma lookup_map {A B} (f : A -> B) (l : list A) (i : nat) :
  List.map f l !! i = option_map f (l !! i).
Proof.
  revert i. induction l as [| a l IH]; intros [| i]; cbn; auto.
Qed.

Lemma Kind_eqb_eq a b : Kind_eqb a b = true <-> a = b.
Proof. destruct a, b; cbn; split; congruence. Qed.

Lemma password_is_sensitive : sensitiveFields !! "password" = Some tt.
Proof. reflexivity. Qed.

(** C4, as amended. Take a struct with ASCII field names, given by value or
    through a non-nil pointer, with an exported string field whose
    lower-cased name is [password], and none of whose exported,
    non-sensitive fields is itself a struct held by value. Then
    [sanitizeRequest] returns a pointer to a cell that did not exist before,
    holding a copy in which that field is ["[REDACTED]"], every exported
    non-sensitive field is the original field, and every unexported field is
    the zero value of its type; the cells that existed before, the input
    among them, are as they were. *)
Theorem sanitize_redacts_password
    (v : any) (h : list Value) name fields (i : nat) fname pw :
  (v = Some (VStruct name fields) \/
   exists e l, v = Some (VPtr e (Some l)) /\ h !! l = Some (VStruct name fields)) ->
  ascii_fields fields ->
  fields !! i = Some (fname, VString pw) ->
  IsExported fname = true ->
  strings_ToLower fname = "password" ->
  (forall gname x, In (gname, x) fields -> IsExported gname = true ->
                   sensitiveFields !! strings_ToLower gname = None ->
                   Value_Kind x <> KStruct) ->
  exists copy,
    sanitizeRequest v h
    = (Returned (Some (VPtr (TypeOf (VStruct name fields)) (Some (length h)))),
       h ++ [VStruct name copy]) /\
    copy !! i = Some (fname, VString REDACTED) /\
    (forall (j : nat) gname x,
        fields !! j = Some (gname, x) -> IsExported gname = true ->
        sensitiveFields !! strings_ToLower gname = None ->
        copy !! j = Some (gname, x)) /\
    (forall (j : nat) gname x,
        fields !! j = Some (gname, x) -> IsExported gname = false ->
        copy !! j = Some (gname, Zero (TypeOf x))) /\
    (forall l : nat, (l < length h)%nat -> (h ++ [VStruct name copy]) !! l = h !! l).
Proof.
  intros Hv _ Hi Hexp Hlow Hflat.
  assert (Hok : forallb (fun f => negb (recursed_field sensitiveFields f)) fields = true).
  { apply forallb_forall. intros [gname x] Hin. apply negb_true_iff.
    unfold recursed_field. cbn [fst snd].
    destruct (IsExported gname) eqn:He; [| reflexivity].
    destruct (sensitiveFields !! strings_ToLower gname) eqn:Hs; [reflexivity |].
    cbn. destruct (Kind_eqb (Value_Kind x) KStruct) eqn:Hk; [| reflexivity].
    apply Kind_eqb_eq in Hk. now destruct (Hflat gname x Hin He Hs). }
  exists (List.map (redact_field sensitiveFields) fields).
  split; [| split; [| split; [| split]]].
  - unfold sanitizeRequest. rewrite (sanitize_struct_input _ v h name fields Hv).
    now apply sanitize_from_copy.
  - rewrite lookup_map, Hi. cbn [option_map]. unfold redact_field. cbn [fst snd].
    rewrite Hexp, Hlow, password_is_sensitive. reflexivity.
  - intros j gname x Hj He Hs. rewrite lookup_map, Hj. cbn [option_map].
    unfold redact_field. cbn [fst snd]. now rewrite He, Hs.
  - intros j gname x Hj He. rewrite lookup_map, Hj. cbn [option_map].
    unfold redact_field. cbn [fst snd]. now rewrite He.
  - intros l Hl. now apply lookup_app_l.
Qed.

Lemma sanitize_redacts_password_witness :
  exists copy,
    sanitizeRequest (Some (VPtr Examples.LoginRequestT (Some 0%nat))) Examples.heap0
    = (Returned (Some (VPtr Examples.LoginRequestT (Some 4%nat))),
       Examples.heap0 ++ [VStruct "LoginRequest" copy]) /\
    copy !! 1%nat = Some ("Password", VString REDACTED) /\
    (forall (j : nat) gname x,
        [("Username", VString "bob"); ("Password", VString "hunter2")] !! j
        = Some (gname, x) ->
        IsExported gname = true ->
        sensitiveFields !! strings_ToLower gname = None ->
        copy !! j = Some (gname, x)) /\
    (forall (j : nat) gname x,
        [("Username", VString "bob"); ("Password", VString "hunter2")] !! j
        = Some (gname, x) ->
        IsExported gname = false ->
        copy !! j = Some (gname, Zero (TypeOf x))) /\
    (forall l : nat, (l < 4)%nat ->
        (Examples.heap0 ++ [VStruct "LoginRequest" copy]) !! l = Examples.heap0 !! l).
Proof.
  apply (sanitize_redacts_password
           (Some (VPtr Examples.LoginRequestT (Some 0%nat))) Examples.heap0
           "LoginRequest" [("Username", VString "bob"); ("Password", VString "hunter2")]
           1%nat "Password" "hunter2").
  - right. exists Examples.LoginRequestT, 0%nat. split; reflexivity.
  - intros gname x [H | [H | []]]; inversion H; subst; reflexivity.
  - reflexivity.
  - reflexivity.
  - reflexivity.
  - intros gname x [H | [H | []]] _ _; inversion H; subst; cbn; discriminate.
Defined.

(** C4 as stated fails. A struct with an exported [Password] and an
    unexported sibling [state] is copied with [Password] redacted and
    [state] reset to zero: that sibling of the copy is not the original
    field. And a string field named [password] in lower case is unexported:
    the copy holds the empty string there, not the redaction marker. *)
Lemma sanitize_zeroes_unexported_fields :
  (exists fields copy,
      Examples.withUnexported = VStruct "LoginRequest" fields /\
      sanitizeRequest (Some Examples.withUnexported) []
      = (Returned (Some (VPtr (TypeOf Examples.withUnexported) (Some 0%nat))),
         [VStruct "LoginRequest" copy]) /\
      fields !! 1%nat = Some ("Password", VString "hunter2") /\
      copy !! 1%nat = Some ("Password", VString REDACTED) /\
      fields !! 2%nat = Some ("state", VInt 7) /\
      sensitiveFields !! strings_ToLower "state" = None /\
      copy !! 2%nat = Some ("state", VInt 0) /\
      copy !! 2%nat <> fields !! 2%nat) /\
  (exists copy,
      sanitizeRequest (Some (VStruct "creds" [("password", VString "hunter2")])) []
      = (Returned (Some (VPtr (TStruct "creds" [("password", TString)]) (Some 0%nat))),
         [VStruct "creds" copy]) /\
      strings_ToLower "password" = "password" /\
      copy !! 0%nat = Some ("password", VString "") /\
      copy !! 0%nat <> Some ("password", VString REDACTED)).
Proof.
  split.
  - do 2 eexists. split; [reflexivity |]. vm_compute. repeat split; congruence.
  - eexists. vm_compute. repeat split; congruence.
Qed.

(** C5, at the failing inputs. A struct nested by value makes [sanitize]
    panic: the sanitized copy of the inner struct is a pointer, which cannot
    be set into the struct-typed field. A struct reached through a pointer
    field, as the message of a request envelope is, is not visited: the copy
    of the envelope points to the same message, whose [Password] is still in
    clear. *)
Theorem sanitize_misses_nested_fields :
  (exists h',
      sanitizeRequest (Some Examples.nestedByValue) []
      = (Panicked "reflect.Set: value is not assignable to the type of the field", h')) /\
  sanitizeRequest (Some (VPtr Examples.RequestT (Some 1%nat))) Examples.heap0
  = (Returned (Some (VPtr Examples.RequestT (Some 4%nat))),
     Examples.heap0 ++
     [VStruct "Request"
        [("Msg", VPtr Examples.LoginRequestT (Some 0%nat));
         ("spec", VStruct "Spec" [("Procedure", VString "")]);
         ("header", VMap TString (TSlice TString) None);
         ("method", VString "")]]) /\
  Examples.heap0 !! 0%nat
  = Some (VStruct "LoginRequest"
            [("Username", VString "bob"); ("Password", VString "hunter2")]).
Proof. split; [eexists |]; vm_compute; repeat split. Qed.

Section LoggingProperties.

Context {W IDToken : Type}.
Implicit Types (s : @State W IDToken) (next : @UnaryFunc W IDToken).
Implicit Types (middleware : @grpcAuthMiddleware W IDToken).


End LoggingProperties.

(** C6, at the failing input. The handler returns the response of cell 3,
    whose message carries a token. The Logging Interceptor returns that
    response and logs it as it is: the logged value is the handler's own
    pointer, and no copy of the response was made (the one new cell is the
    copy of the request), whereas sanitizing the response yields a pointer
    to a fresh copy. *)
Theorem LoggingUnaryInterceptor_logs_raw_response :
  let request := Examples.loginRequest ["acme"] in
  let resp : any := Some (VPtr Examples.ResponseT (Some 3%nat)) in
  exists requestCopy,
    LoggingUnaryInterceptor Examples.middlewareNoToken Examples.loginHandler
      Background request Examples.state0
    = (Returned (resp, None),
       mkState (Examples.heap0 ++ [requestCopy]) 105
         [EvLog Zap.InfoLevel "gRPC request received"
            [Zap.String "method" "/auth.v1.AuthService/Login";
             Zap.Any "request" (Some (VPtr Examples.RequestT (Some 4%nat)))];
          EvNext Background request;
          EvLog Zap.InfoLevel "gRPC request completed"
            [Zap.String "method" "/auth.v1.AuthService/Login";
             Zap.Any "response" resp;
             Zap.Duration "duration" 5]]) /\
    fst (sanitizeRequest resp (Examples.heap0 ++ [requestCopy]))
    = Returned (Some (VPtr Examples.ResponseT (Some 5%nat))) /\
    fst (sanitizeRequest resp (Examples.heap0 ++ [requestCopy])) <> Returned resp.
Proof.
  eexists. split; [vm_compute; reflexivity |].
  split; [vm_compute; reflexivity | vm_compute; congruence].
Qed.

(** C7, at the failing input. For a verified token whose claims cannot be
    decoded, the Token Interceptor returns an error of code internal; the
    package's error [ErrFailedParsingTokenClaims] for this failure carries
    the code invalid-argument instead. *)
Theorem ErrFailedParsingTokenClaims_not_internal :
  (exists e s',
      UnaryTokenInterceptor Examples.middlewareBadClaims ["/grpc.health.v1.Health/Check"]
        Examples.loginHandler Background (Examples.loginRequest ["acme"]) Examples.state0
      = (Returned (None, Some e), s') /\
      CodeOf e = Connect.CodeInternal /\
      trace s' = [EvExtractHeaderToken (Examples.loginRequest ["acme"]);
                  EvVerify Background "eyJ"; EvClaims "eyJ"]) /\
  CodeOf ErrFailedParsingTokenClaims = Connect.CodeInvalidArgument /\
  CodeOf ErrFailedParsingTokenClaims <> Connect.CodeInternal.
Proof.
  split; [| split; [reflexivity | discriminate]].
  do 2 eexists. split; [| split].
  - apply (UnaryTokenInterceptor_claims_error Examples.middlewareBadClaims
             ["/grpc.health.v1.Health/Check"] Examples.loginHandler Background
             (Examples.loginRequest ["acme"]) Examples.state0
             "eyJ" 101 "eyJ" 102 Examples.noClaims
             (errors_New "json: cannot unmarshal string into Go value") 103);
      try reflexivity.
    cbn. intros [H | []]. discriminate H.
  - reflexivity.
  - reflexivity.
Qed.

(** * Further properties *)

(** ** Paged results and the pagination scope *)

Lemma ceil_div_le a b m : 0 < b -> a <= b * m -> ceil_div a b <= m.
Proof.
  intros Hb H. unfold ceil_div.
  assert (- m <= - a / b); [| lia].
  apply Z.div_le_lower_bound; lia.
Qed.

(** The ceiling is the least number of parts of size [b] that hold [a]. *)
Lemma ceil_div_bounds a b :
  0 < b -> (ceil_div a b - 1) * b < a <= ceil_div a b * b.
Proof.
  intros Hb. unfold ceil_div.
  pose proof (Z.div_mod (- a) b ltac:(lia)) as E.
  pose proof (Z.mod_pos_bound (- a) b Hb) as B.
  nia.
Qed.

Lemma GetTotalPages_eq_ceil (T : Type) (p : PagedResult T) (limit : Z) :
  0 <= Total p -> GoInt.in_int64 (Total p) -> 0 < limit -> GoInt.in_int32 limit ->
  Total p <= limit * GoInt.max_int32 ->
  GetTotalPages (Some p) limit = ceil_div (Total p) limit.
Proof.
  intros Hpos H64 Hlt H32 Hfit. unfold GetTotalPages.
  destruct (Z.leb_spec limit 0); [lia |].
  pose proof (ceil_div_le _ _ _ Hlt Hfit) as Hc.
  pose proof (GoIntFacts.ceil_div_nonneg _ _ Hpos Hlt) as Hn.
  rewrite GoIntFacts.int64_sub_idem, GoIntFacts.int64_id.
  - rewrite GoIntFacts.div_ceil by lia. apply GoIntFacts.int32_id.
    unfold GoInt.in_int32, GoInt.min_int32, GoInt.max_int32 in *. lia.
  - unfold GoInt.in_int64, GoInt.in_int32, GoInt.min_int64, GoInt.max_int64,
      GoInt.min_int32, GoInt.max_int32 in *. nia.
Qed.

(** X1. When the page count fits the int32 result, [GetTotalPages] is the
    least number of pages of [limit] items that hold [total] items: that
    many pages hold them all, one page fewer does not. *)
Theorem GetTotalPages_covers (T : Type) (p : PagedResult T) (limit : Z) :
  0 <= Total p -> GoInt.in_int64 (Total p) -> 0 < limit -> GoInt.in_int32 limit ->
  Total p <= limit * GoInt.max_int32 ->
  let n := GetTotalPages (Some p) limit in
  (n - 1) * limit < Total p <= n * limit.
Proof.
  intros Hpos H64 Hlt H32 Hfit n. subst n.
  rewrite GetTotalPages_eq_ceil by assumption.
  now apply ceil_div_bounds.
Qed.

Lemma GetTotalPages_covers_witness :
  (GetTotalPages (Some (mkPagedResult tt 95)) 20 - 1) * 20 < 95
  <= GetTotalPages (Some (mkPagedResult tt 95)) 20 * 20.
Proof.
  apply (GetTotalPages_covers unit (mkPagedResult tt 95) 20); vm_compute;
    try split; congruence.
Defined.

(** X2. With a fixed positive [limit], more items never need fewer pages. *)
Theorem GetTotalPages_monotone (T : Type) (p q : PagedResult T) (limit : Z) :
  0 <= Total p -> Total p <= Total q -> GoInt.in_int64 (Total q) ->
  0 < limit -> GoInt.in_int32 limit -> Total q <= limit * GoInt.max_int32 ->
  GetTotalPages (Some p) limit <= GetTotalPages (Some q) limit.
Proof.
  intros Hpos Hle H64 Hlt H32 Hfit.
  assert (GoInt.in_int64 (Total p)).
  { unfold GoInt.in_int64, GoInt.min_int64, GoInt.max_int64 in *. lia. }
  rewrite !GetTotalPages_eq_ceil by (assumption || lia).
  unfold ceil_div.
  assert (- Total q / limit <= - Total p / limit); [| lia].
  apply Z.div_le_mono; lia.
Qed.

Lemma GetTotalPages_monotone_witness :
  GetTotalPages (Some (mkPagedResult tt 40)) 20
  <= GetTotalPages (Some (mkPagedResult tt 41)) 20.
Proof.
  apply (GetTotalPages_monotone unit (mkPagedResult tt 40) (mkPagedResult tt 41) 20);
    vm_compute; try split; congruence.
Defined.

(** The scope on a request, nil or not, whose page is an int32. *)
Lemma WithPaginationScope_eq (pagination : option PageRequest) (db : Gorm.DB) :
  GoInt.in_int32 (GetPage pagination) ->
  let page := effective_page (GetPage pagination) in
  let limit := effective_limit (GetLimit pagination) in
  WithPaginationScope pagination db =
    db ++ [Gorm.Limit limit;
           Gorm.Offset (GoInt.int32 ((page - 1) * limit));
           Gorm.Order (String.append (effective_sort (GetSort pagination))
                         (String.append " " (effective_direction (GetDirection pagination))))].
Proof.
  intros Hp page limit.
  unfold WithPaginationScope, Gorm.db_Order, Gorm.db_Offset, Gorm.db_Limit.
  fold (effective_page (GetPage pagination)) (effective_limit (GetLimit pagination))
    (effective_sort (GetSort pagination)).
  fold page limit.
  rewrite (GoIntFacts.int32_id (page - 1)).
  - rewrite <- !app_assoc. cbn [app]. unfold effective_direction.
    destruct (GetDirection pagination); reflexivity.
  - subst page. unfold effective_page, GoInt.in_int32, GoInt.min_int32, GoInt.max_int32 in *.
    destruct (Z.leb_spec (GetPage pagination) 0); lia.
Qed.

(** X3. The first page starts at row 0: for a nil request and for every
    request with [page <= 1], whatever its limit, the scope applies a limit
    of at least 1 and offset 0. *)
Theorem WithPaginationScope_first_page (pagination : option PageRequest) (db : Gorm.DB) :
  GoInt.in_int32 (GetPage pagination) -> GetPage pagination <= 1 ->
  exists limit order,
    WithPaginationScope pagination db
    = db ++ [Gorm.Limit limit; Gorm.Offset 0; Gorm.Order order] /\ 1 <= limit.
Proof.
  intros Hp H1. rewrite WithPaginationScope_eq by assumption.
  assert (Hpage : effective_page (GetPage pagination) = 1).
  { unfold effective_page. destruct (Z.leb_spec (GetPage pagination) 0); lia. }
  rewrite Hpage. do 2 eexists. split; [reflexivity |].
  unfold effective_limit. destruct (Z.leb_spec (GetLimit pagination) 0); lia.
Qed.

Lemma WithPaginationScope_first_page_witness :
  exists limit order,
    WithPaginationScope None [Gorm.Order "name asc"]
    = [Gorm.Order "name asc"] ++ [Gorm.Limit limit; Gorm.Offset 0; Gorm.Order order]
    /\ 1 <= limit.
Proof.
  apply (WithPaginationScope_first_page None [Gorm.Order "name asc"]);
    vm_compute; try split; congruence.
Defined.

(** X4. Consecutive pages are adjacent windows: when [page >= 1] and
    [page * limit] fits in 32 bits, page [page] starts at row
    [(page - 1) * limit] and page [page + 1] at row [page * limit], with the
    same limit and order. *)
Theorem WithPaginationScope_adjacent_pages (r : PageRequest) (db : Gorm.DB) :
  1 <= Page r -> GoInt.in_int32 (Page r + 1) ->
  Page r * effective_limit (Limit r) <= GoInt.max_int32 ->
  let limit := effective_limit (Limit r) in
  let next := mkPageRequest (Page r + 1) (Limit r) (Sort r) (Direction r) in
  exists order,
    WithPaginationScope (Some r) db
    = db ++ [Gorm.Limit limit; Gorm.Offset ((Page r - 1) * limit); Gorm.Order order] /\
    WithPaginationScope (Some next) db
    = db ++ [Gorm.Limit limit; Gorm.Offset (Page r * limit); Gorm.Order order].
Proof.
  intros H1 Hn Hfit limit next.
  assert (Hl : 1 <= limit).
  { subst limit. unfold effective_limit. destruct (Z.leb_spec (Limit r) 0); lia. }
  assert (Hp : GoInt.in_int32 (Page r)).
  { unfold GoInt.in_int32, GoInt.min_int32, GoInt.max_int32 in *. lia. }
  eexists. split.
  - rewrite WithPaginationScope_eq by exact Hp. cbn [GetPage GetLimit GetSort GetDirection].
    fold limit. unfold effective_page. destruct (Z.leb_spec (Page r) 0); [lia |].
    rewrite GoIntFacts.int32_id; [reflexivity |].
    unfold GoInt.in_int32, GoInt.min_int32, GoInt.max_int32 in *. nia.
  - rewrite WithPaginationScope_eq by exact Hn. subst next.
    cbn [GetPage GetLimit GetSort GetDirection Page Limit Sort Direction].
    fold limit. unfold effective_page. destruct (Z.leb_spec (Page r + 1) 0); [lia |].
    replace (Page r + 1 - 1) with (Page r) by lia.
    rewrite GoIntFacts.int32_id; [reflexivity |].
    unfold GoInt.in_int32, GoInt.min_int32, GoInt.max_int32 in *. nia.
Qed.

Lemma WithPaginationScope_adjacent_pages_witness :
  exists order,
    WithPaginationScope (Some (mkPageRequest 3 25 "name" SortDirection_SORT_DIRECTION_ASC)) []
    = [Gorm.Limit 25; Gorm.Offset 50; Gorm.Order order] /\
    WithPaginationScope (Some (mkPageRequest 4 25 "name" SortDirection_SORT_DIRECTION_ASC)) []
    = [Gorm.Limit 25; Gorm.Offset 75; Gorm.Order order].
Proof.
  apply (WithPaginationScope_adjacent_pages
           (mkPageRequest 3 25 "name" SortDirection_SORT_DIRECTION_ASC) []);
    vm_compute; try split; congruence.
Defined.

(** X5. The page that [GetTotalPages] counts last is the last one with
    rows: for [0 < total <= 2^31 - 1] and a positive limit, the window of
    page [GetTotalPages(limit)] starts before row [total] and reaches it. *)
Theorem WithPaginationScope_last_page
    (T : Type) (p : PagedResult T) (r : PageRequest) (db : Gorm.DB) :
  0 < Total p <= GoInt.max_int32 -> 0 < Limit r -> GoInt.in_int32 (Limit r) ->
  Page r = GetTotalPages (Some p) (Limit r) ->
  exists offset order,
    WithPaginationScope (Some r) db
    = db ++ [Gorm.Limit (Limit r); Gorm.Offset offset; Gorm.Order order] /\
    offset < Total p <= offset + Limit r.
Proof.
  intros Ht Hl H32 Hpage.
  assert (H64 : GoInt.in_int64 (Total p)).
  { unfold GoInt.in_int64, GoInt.min_int64, GoInt.max_int64, GoInt.max_int32 in *. lia. }
  assert (Hfit : Total p <= Limit r * GoInt.max_int32).
  { unfold GoInt.max_int32 in *. nia. }
  pose proof (GetTotalPages_eq_ceil T p (Limit r) ltac:(lia) H64 Hl H32 Hfit) as Hn.
  pose proof (ceil_div_bounds (Total p) (Limit r) Hl) as Hb.
  rewrite <- Hn, <- Hpage in Hb.
  assert (Hp1 : 1 <= Page r) by nia.
  assert (Hp : GoInt.in_int32 (Page r)).
  { unfold GoInt.in_int32, GoInt.min_int32, GoInt.max_int32 in *. nia. }
  rewrite WithPaginationScope_eq by exact Hp. cbn [GetPage GetLimit GetSort GetDirection].
  unfold effective_page, effective_limit.
  destruct (Z.leb_spec (Page r) 0); [lia |].
  destruct (Z.leb_spec (Limit r) 0); [lia |].
  rewrite GoIntFacts.int32_id.
  - do 2 eexists. split; [reflexivity |]. lia.
  - unfold GoInt.in_int32, GoInt.min_int32, GoInt.max_int32 in *. nia.
Qed.

Lemma WithPaginationScope_last_page_witness :
  exists offset order,
    WithPaginationScope (Some (mkPageRequest 5 20 "" SortDirection_SORT_DIRECTION_UNSPECIFIED)) []
    = [] ++ [Gorm.Limit 20; Gorm.Offset offset; Gorm.Order order] /\
    offset < 95 <= offset + 20.
Proof.
  apply (WithPaginationScope_last_page unit (mkPagedResult tt 95)
           (mkPageRequest 5 20 "" SortDirection_SORT_DIRECTION_UNSPECIFIED) []);
    vm_compute; try split; congruence.
Defined.

(** ** Context helper and tenant scope *)

Lemma tenant_not_found_unless_string F ctx :
  (forall id, Context_Value ctx (Key_string XTenantKey) = Some (any_string id) -> id = "") ->
  GetTenant F ctx =
  match F ctx with
  | Some md =>
      match md !! XTenantKey with
      | Some (first :: _) =>
          if String.eqb first ""
          then (("", Some (errors_New
                  "could not extract tenant id: x-tenant-id not found in context or metadata")),
                [])
          else ((first, None),
                [mkLogCall "Received X-Tenant-Id from gRPC metadata: %s"
                   (Some (any_string first))])
      | _ => (("", Some (errors_New
                  "could not extract tenant id: x-tenant-id not found in context or metadata")),
              [])
      end
  | None => (("", Some (errors_New
                  "could not extract tenant id: x-tenant-id not found in context or metadata")),
             [])
  end.
Proof.
  intros Hno. unfold GetTenant.
  destruct (Context_Value ctx (Key_string XTenantKey)) as [[id | p | t] |]; try reflexivity.
  rewrite (Hno id eq_refl). reflexivity.
Qed.

(** X6. Where [GetTenant] takes the tenant from: a non-empty string bound to
    the tenant key in the context wins; without one, the first value of
    [x-tenant-id] in the incoming metadata is returned when it is not empty;
    without either, the result is the empty string and an error. *)
Theorem GetTenant_sources
    (F : Context -> option (gmap string (list string))) (ctx : Context) :
  (forall id, Context_Value ctx (Key_string XTenantKey) = Some (any_string id) ->
              id <> "" -> fst (GetTenant F ctx) = (id, None)) /\
  ((forall id, Context_Value ctx (Key_string XTenantKey) = Some (any_string id) -> id = "") ->
   (forall md first rest,
       F ctx = Some md -> md !! XTenantKey = Some (first :: rest) -> first <> "" ->
       fst (GetTenant F ctx) = (first, None)) /\
   ((F ctx = None \/
     exists md, F ctx = Some md /\
                (md !! XTenantKey = None \/ md !! XTenantKey = Some [] \/
                 exists rest, md !! XTenantKey = Some ("" :: rest))) ->
    fst (GetTenant F ctx)
    = ("", Some (errors_New
                   "could not extract tenant id: x-tenant-id not found in context or metadata")))).
Proof.
  split.
  - intros id Hid Hne. unfold GetTenant. rewrite Hid.
    destruct (String.eqb_spec id ""); [contradiction | reflexivity].
  - intros Hno. rewrite (tenant_not_found_unless_string F ctx Hno). split.
    + intros md first rest -> -> Hne.
      destruct (String.eqb_spec first ""); [contradiction | reflexivity].
    + intros [-> | (md & -> & [-> | [-> | (rest & ->)]])]; reflexivity.
Qed.

Lemma GetTenant_sources_witness :
  fst (GetTenant (MoreExamples.fromMetadata (Some MoreExamples.tenantMetadata))
         (WithValue Background (Key_string XTenantKey) (Some (any_string "globex"))))
  = ("globex", None) /\
  fst (GetTenant (MoreExamples.fromMetadata (Some MoreExamples.tenantMetadata)) Background)
  = ("acme", None) /\
  fst (GetTenant (MoreExamples.fromMetadata None) Background)
  = ("", Some (errors_New
                 "could not extract tenant id: x-tenant-id not found in context or metadata")).
Proof.
  split; [| split].
  - apply (proj1 (GetTenant_sources _ _)); [reflexivity | discriminate].
  - refine (proj1 (proj2 (GetTenant_sources _ Background) _)
              MoreExamples.tenantMetadata "acme" [] _ _ _).
    + intros id H. discriminate H.
    + reflexivity.
    + vm_compute. reflexivity.
    + discriminate.
  - refine (proj2 (proj2 (GetTenant_sources _ Background) _) _).
    + intros id H. discriminate H.
    + left. reflexivity.
Defined.

(** X7. [GetTenant] never returns an empty tenant id without an error, nor
    an error with a tenant id: either the id is not empty, the error is nil
    and one line is logged, or the id is empty, the error is set and nothing
    is logged. *)
Theorem GetTenant_id_or_error
    (F : Context -> option (gmap string (list string))) (ctx : Context) :
  (exists id call, GetTenant F ctx = ((id, None), [call]) /\ id <> "" /\
                   log_operand call = Some (any_string id)) \/
  (exists e, GetTenant F ctx = (("", Some e), [])).
Proof.
  assert (Hmd :
    forall r,
      r = match F ctx with
          | Some md =>
              match md !! XTenantKey with
              | Some (first :: _) =>
                  if String.eqb first ""
                  then (("", Some (errors_New
                    "could not extract tenant id: x-tenant-id not found in context or metadata")),
                        [])
                  else ((first, None),
                        [mkLogCall "Received X-Tenant-Id from gRPC metadata: %s"
                           (Some (any_string first))])
              | _ => (("", Some (errors_New
                    "could not extract tenant id: x-tenant-id not found in context or metadata")),
                      [])
              end
          | None => (("", Some (errors_New
                    "could not extract tenant id: x-tenant-id not found in context or metadata")),
                     [])
          end ->
      (exists id call, r = ((id, None), [call]) /\ id <> "" /\
                       log_operand call = Some (any_string id)) \/
      (exists e, r = (("", Some e), []))).
  { intros r ->. destruct (F ctx) as [md |]; [| right; eauto].
    destruct (md !! XTenantKey) as [[| first rest] |]; [right; eauto | | right; eauto].
    destruct (String.eqb_spec first ""); [right; eauto |].
    left. do 2 eexists. split; [reflexivity |]. split; [assumption | reflexivity]. }
  unfold GetTenant.
  destruct (Context_Value ctx (Key_string XTenantKey)) as [[id | p | t] |];
    try (apply Hmd; reflexivity).
  destruct (String.eqb_spec id ""); [apply Hmd; reflexivity |].
  left. do 2 eexists. split; [reflexivity |]. split; [assumption | reflexivity].
Qed.

(** X8. What the Tenant Interceptor stores is what the readers get: in the
    context it hands to [next], [GetTenant] returns the tenant id of the
    header, whatever the incoming metadata, and [WithTenantScope] adds the
    condition [tenant_id = ?] with that id as its argument. *)
Theorem UnaryTenantInterceptor_then_readers
    {W IDToken : Type} (next : @UnaryFunc W IDToken) ctx req (s : @State W IDToken)
    tenantID rest :
  Request_Header req !! "X-Tenant-Id" = Some (tenantID :: rest) ->
  tenantID <> "" ->
  exists newCtx s1,
    UnaryTenantInterceptor next ctx req s = next newCtx req s1 /\
    (forall F, fst (GetTenant F newCtx) = (tenantID, None)) /\
    (forall (DB : Type) (db_Where : DB -> string -> option dyn -> DB) (db : DB),
        fst (WithTenantScope db_Where newCtx db)
        = db_Where db "tenant_id = ?" (Some (any_string tenantID))).
Proof.
  intros Hh Hne.
  exists (WithValue ctx (Key_string XTenantKey) (Some (any_string tenantID))).
  eexists. split; [| split].
  - unfold UnaryTenantInterceptor, Http.Header_Get. rewrite tenant_key_canonical, Hh.
    destruct (String.eqb_spec tenantID ""); [contradiction |].
    apply invoke_run.
  - intros F. unfold GetTenant. rewrite Value_WithValue_same.
    destruct (String.eqb_spec tenantID ""); [contradiction | reflexivity].
  - intros DB db_Where db. unfold WithTenantScope. cbn [fst].
    now rewrite Value_WithValue_same.
Qed.

Lemma UnaryTenantInterceptor_then_readers_witness :
  exists newCtx s1,
    UnaryTenantInterceptor Examples.loginHandler Background (Examples.loginRequest ["acme"])
      Examples.state0
    = Examples.loginHandler newCtx (Examples.loginRequest ["acme"]) s1 /\
    (forall F, fst (GetTenant F newCtx) = ("acme", None)) /\
    (forall (DB : Type) (db_Where : DB -> string -> option dyn -> DB) (db : DB),
        fst (WithTenantScope db_Where newCtx db)
        = db_Where db "tenant_id = ?" (Some (any_string "acme"))).
Proof.
  apply (UnaryTenantInterceptor_then_readers Examples.loginHandler Background
           (Examples.loginRequest ["acme"]) Examples.state0 "acme" []).
  - vm_compute. reflexivity.
  - discriminate.
Defined.

(** X9. [WithTenantScope] reads the context only. For a call whose tenant
    id arrives in the incoming metadata and not in the context, [GetTenant]
    returns the id, while [WithTenantScope] adds the condition
    [tenant_id = ?] with a nil argument and reports no error. *)
Theorem WithTenantScope_ignores_metadata
    (DB : Type) (db_Where : DB -> string -> option dyn -> DB) (db : DB)
    (F : Context -> option (gmap string (list string))) (ctx : Context)
    md first rest :
  Context_Value ctx (Key_string XTenantKey) = None ->
  F ctx = Some md -> md !! XTenantKey = Some (first :: rest) -> first <> "" ->
  fst (GetTenant F ctx) = (first, None) /\
  fst (WithTenantScope db_Where ctx db) = db_Where db "tenant_id = ?" None.
Proof.
  intros Hctx HF Hmd Hne. split.
  - unfold GetTenant. rewrite Hctx, HF, Hmd.
    destruct (String.eqb_spec first ""); [contradiction | reflexivity].
  - unfold WithTenantScope. cbn [fst]. now rewrite Hctx.
Qed.

Lemma WithTenantScope_ignores_metadata_witness :
  fst (GetTenant (MoreExamples.fromMetadata (Some MoreExamples.tenantMetadata)) Background)
  = ("acme", None) /\
  fst (WithTenantScope MoreExamples.recordWhere Background [])
  = [("tenant_id = ?", None)].
Proof.
  apply (WithTenantScope_ignores_metadata _ MoreExamples.recordWhere []
           (MoreExamples.fromMetadata (Some MoreExamples.tenantMetadata)) Background
           MoreExamples.tenantMetadata "acme" []).
  - reflexivity.
  - reflexivity.
  - vm_compute. reflexivity.
  - discriminate.
Defined.

(** ** The interceptor chain, further *)

Lemma Value_WithValue_other ctx key key' val :
  Key_eqb key key' = false ->
  Context_Value (WithValue ctx key val) key' = Context_Value ctx key'.
Proof. intros H. cbn. now rewrite H. Qed.

Section ChainFurther.

Context {W IDToken : Type}.
#[local] Arguments Key_eqb : simpl never.
Implicit Types (s : @State W IDToken) (next handler : @UnaryFunc W IDToken).
Implicit Types (middleware : @grpcAuthMiddleware W IDToken).

(** X10. On a route that is not exempt, when the token is extracted and the
    verifier rejects it with [err], the Token Interceptor returns no
    response and an error of code unauthenticated, the code of
    [ErrInvalidToken], whose text starts with the text of that error; the
    token is not decoded into claims and [next] is not invoked. *)
Theorem UnaryTokenInterceptor_invalid_token
    middleware routes next ctx req s token w1 idToken err w2 :
  ~ In (Procedure (Request_Spec req)) routes ->
  ExtractHeaderToken (authenticator middleware) req (world s) = ((token, None), w1) ->
  Verify (authenticator middleware) ctx token w1 = ((idToken, Some err), w2) ->
  exists e,
    UnaryTokenInterceptor middleware routes next ctx req s =
      (Returned (None, Some e),
       mkState (heap s) w2 (trace s ++ [EvExtractHeaderToken req; EvVerify ctx token])) /\
    e = connect_NewError Connect.CodeUnauthenticated
          (errors_New (String.append "invalid token: " (Error err))) /\
    CodeOf e = CodeOf ErrInvalidToken /\
    String.prefix (Error ErrInvalidToken) (Error e) = true.
Proof.
  intros Hout Hex Hver. apply slices_Contains_not_In in Hout.
  eexists. split; [| split; [reflexivity | split; reflexivity]].
  unfold UnaryTokenInterceptor. rewrite Hout.
  unfold bind, call. rewrite Hex. cbn. rewrite Hver. cbn.
  rewrite <- !app_assoc. reflexivity.
Qed.

(** X11. On a route that is not exempt the Token Interceptor lets nothing
    through unauthenticated. Given what extraction, verification and
    decoding return when they are called, in that order and each only after
    the one before returned no error: the interceptor stops at the first
    error, returning it as unauthenticated (extraction, verification) or
    internal (decoding) without a later call and without invoking [next];
    and it invokes [next] only after all three returned no error, once and
    last, on the same request, with a context from which [GetUserClaims]
    returns the very claims that were decoded and in which every other key
    is bound as before. The heap is untouched throughout. *)
Theorem UnaryTokenInterceptor_guards_next
    middleware routes next ctx req s token err1 w1 idToken err2 w2 claims err3 w3 :
  ~ In (Procedure (Request_Spec req)) routes ->
  ExtractHeaderToken (authenticator middleware) req (world s) = ((token, err1), w1) ->
  (err1 = None ->
   Verify (authenticator middleware) ctx token w1 = ((idToken, err2), w2)) ->
  (err1 = None -> err2 = None ->
   Claims (authenticator middleware) idToken w2 = ((claims, err3), w3)) ->
  let failed (code : Connect.Code) (text : string) (e : error) (w : W) events :=
    UnaryTokenInterceptor middleware routes next ctx req s
    = (Returned (None, Some (connect_NewError code (fmt_Errorf text e))),
       mkState (heap s) w (trace s ++ events)) in
  match err1, err2, err3 with
  | Some e, _, _ =>
      failed Connect.CodeUnauthenticated "missing or invalid token: " e w1
        [EvExtractHeaderToken req]
  | None, Some e, _ =>
      failed Connect.CodeUnauthenticated "invalid token: " e w2
        [EvExtractHeaderToken req; EvVerify ctx token]
  | None, None, Some e =>
      failed Connect.CodeInternal "failed to parse token claims: " e w3
        [EvExtractHeaderToken req; EvVerify ctx token; EvClaims idToken]
  | None, None, None =>
      let newCtx := WithValue ctx (Key_string ContextKeyUser)
                      (Some (any_UserAuthClaims (Some claims))) in
      UnaryTokenInterceptor middleware routes next ctx req s
      = next newCtx req
          (mkState (heap s) w3
             (trace s ++ [EvExtractHeaderToken req; EvVerify ctx token; EvClaims idToken;
                          EvNext newCtx req])) /\
      GetUserClaims newCtx = Returned (Some claims) /\
      (forall key, Key_eqb (Key_string ContextKeyUser) key = false ->
                   Context_Value newCtx key = Context_Value ctx key)
  end.
Proof.
  intros Hout Hex Hver Hcl failed. subst failed. cbv beta.
  apply slices_Contains_not_In in Hout.
  unfold UnaryTokenInterceptor. rewrite Hout. unfold bind, call. rewrite Hex.
  destruct err1 as [e1 |]; [reflexivity |].
  specialize (Hver eq_refl). specialize (Hcl eq_refl).
  cbn [heap world trace]. rewrite Hver.
  destruct err2 as [e2 |]; [cbn; rewrite <- !app_assoc; reflexivity |].
  specialize (Hcl eq_refl). cbn [heap world trace]. rewrite Hcl.
  destruct err3 as [e3 |]; [cbn; rewrite <- !app_assoc; reflexivity |].
  cbv zeta. split; [| split].
  - cbn. rewrite <- !app_assoc. reflexivity.
  - reflexivity.
  - intros key Hkey. cbn [Context_Value]. now rewrite Hkey.
Qed.

(** X12. Tenant Interceptor around Token Interceptor around a handler, on a
    call with a tenant header and a token that is extracted, verified and
    decoded: the handler runs, on the same request, with a context from
    which [GetTenant] returns the tenant of the header and [GetUserClaims]
    the decoded claims. The verifier is given the context that already
    carries the tenant. *)
Theorem chain_reaches_handler_with_tenant_and_claims
    middleware routes handler ctx req s tenantID rest token w1 idToken w2 claims w3 :
  Request_Header req !! "X-Tenant-Id" = Some (tenantID :: rest) ->
  tenantID <> "" ->
  ~ In (Procedure (Request_Spec req)) routes ->
  let ctx1 := WithValue ctx (Key_string XTenantKey) (Some (any_string tenantID)) in
  ExtractHeaderToken (authenticator middleware) req (world s) = ((token, None), w1) ->
  Verify (authenticator middleware) ctx1 token w1 = ((idToken, None), w2) ->
  Claims (authenticator middleware) idToken w2 = ((claims, None), w3) ->
  exists ctx2,
    UnaryTenantInterceptor (UnaryTokenInterceptor middleware routes handler) ctx req s
    = handler ctx2 req
        (mkState (heap s) w3
           (trace s ++ [EvNext ctx1 req; EvExtractHeaderToken req; EvVerify ctx1 token;
                        EvClaims idToken; EvNext ctx2 req])) /\
    (forall F, fst (GetTenant F ctx2) = (tenantID, None)) /\
    GetUserClaims ctx2 = Returned (Some claims).
Proof.
  intros Hh Hne Hout ctx1 Hex Hver Hcl. apply slices_Contains_not_In in Hout.
  exists (WithValue ctx1 (Key_string ContextKeyUser) (Some (any_UserAuthClaims (Some claims)))).
  split; [| split].
  - unfold UnaryTenantInterceptor, Http.Header_Get. rewrite tenant_key_canonical, Hh.
    destruct (String.eqb_spec tenantID ""); [contradiction |].
    fold ctx1. rewrite invoke_run.
    unfold UnaryTokenInterceptor. rewrite Hout.
    unfold bind, call. cbn [heap world trace]. rewrite Hex. cbn.
    rewrite Hver. cbn. rewrite Hcl. cbn.
    rewrite <- !app_assoc. reflexivity.
  - intros F. unfold GetTenant.
    rewrite Value_WithValue_other by reflexivity.
    subst ctx1. rewrite Value_WithValue_same.
    destruct (String.eqb_spec tenantID ""); [contradiction | reflexivity].
  - reflexivity.
Qed.

(** X13. The whole chain on a call without tenant header: Logging
    Interceptor around Tenant Interceptor around Token Interceptor around a
    handler returns [ErrMissingTenantHeader] and logs it as a failure, with
    some duration; the authenticator and the handler are not reached: the
    only events are the two log entries and the invocation of the Tenant
    Interceptor between them. *)
Theorem chain_logs_missing_tenant
    middleware routes handler ctx req s sanitizedReq h1 :
  (Request_Header req !! "X-Tenant-Id" = None \/
   Request_Header req !! "X-Tenant-Id" = Some [] \/
   exists rest, Request_Header req !! "X-Tenant-Id" = Some ("" :: rest)) ->
  sanitizeRequest (Some (Request_value req)) (heap s) = (Returned sanitizedReq, h1) ->
  let fullMethod := Procedure (Request_Spec req) in
  exists duration,
    LoggingUnaryInterceptor middleware
      (UnaryTenantInterceptor (UnaryTokenInterceptor middleware routes handler)) ctx req s
    = (Returned (None, Some ErrMissingTenantHeader),
       mkState h1 (world s)
         (trace s ++
          [EvLog Zap.InfoLevel "gRPC request received"
             [Zap.String "method" fullMethod; Zap.Any "request" sanitizedReq];
           EvNext ctx req;
           EvLog Zap.ErrorLevel "gRPC request failed"
             [Zap.String "method" fullMethod; Zap.Error ErrMissingTenantHeader;
              Zap.Duration "duration" duration]])).
Proof.
  intros Hh Hsan fullMethod. eexists.
  assert (Hget : Http.Header_Get (Request_Header req) XTenantKey = "").
  { unfold Http.Header_Get. rewrite tenant_key_canonical.
    destruct Hh as [H | [H | [rest H]]]; now rewrite H. }
  unfold LoggingUnaryInterceptor, bind, time_Now, on_heap. cbn [heap world trace].
  rewrite Hsan. unfold loggR_Info, invoke, bind, emit. cbn [heap world trace].
  unfold UnaryTenantInterceptor. rewrite Hget. cbn.
  rewrite <- !app_assoc. reflexivity.
Qed.

(** X15. The Logging Interceptor does not recover from a panic of the inner
    chain: when [next] panics, the interceptor panics with the same reason
    and leaves the state as [next] left it, so that the request was logged
    and no failure is. *)
Theorem LoggingUnaryInterceptor_panic_not_logged
    middleware next ctx request s sanitizedReq h1 reason s2 :
  sanitizeRequest (Some (Request_value request)) (heap s) = (Returned sanitizedReq, h1) ->
  next ctx request
    (mkState h1 (world s)
       (trace s ++
        [EvLog Zap.InfoLevel "gRPC request received"
           [Zap.String "method" (Procedure (Request_Spec request));
            Zap.Any "request" sanitizedReq];
         EvNext ctx request]))
  = (Panicked reason, s2) ->
  LoggingUnaryInterceptor middleware next ctx request s = (Panicked reason, s2).
Proof.
  intros Hsan Hnext.
  unfold LoggingUnaryInterceptor, bind, time_Now, on_heap. cbn [heap world trace].
  rewrite Hsan. unfold loggR_Info, invoke, bind, emit. cbn [heap world trace].
  rewrite <- app_assoc. cbn [app]. now rewrite Hnext.
Qed.

End ChainFurther.

Lemma UnaryTokenInterceptor_invalid_token_witness :
  exists e,
    UnaryTokenInterceptor MoreExamples.middlewareExpired ["/grpc.health.v1.Health/Check"]
      Examples.loginHandler Background (Examples.loginRequest ["acme"]) Examples.state0
    = (Returned (None, Some e),
       mkState Examples.heap0 102
         [EvExtractHeaderToken (Examples.loginRequest ["acme"]); EvVerify Background "eyJ"]) /\
    e = connect_NewError Connect.CodeUnauthenticated
          (errors_New "invalid token: oidc: token is expired") /\
    CodeOf e = CodeOf ErrInvalidToken /\
    String.prefix (Error ErrInvalidToken) (Error e) = true.
Proof.
  apply (UnaryTokenInterceptor_invalid_token MoreExamples.middlewareExpired
           ["/grpc.health.v1.Health/Check"] Examples.loginHandler Background
           (Examples.loginRequest ["acme"]) Examples.state0 "eyJ" 101 "eyJ"
           (errors_New "oidc: token is expired") 102).
  - cbn. intros [H | []]. discriminate H.
  - reflexivity.
  - reflexivity.
Defined.

Lemma UnaryTokenInterceptor_guards_next_witness :
  (let newCtx := WithValue Background (Key_string ContextKeyUser)
                   (Some (any_UserAuthClaims (Some Examples.bobClaims))) in
   UnaryTokenInterceptor MoreExamples.middlewareOk ["/grpc.health.v1.Health/Check"]
     Examples.loginHandler Background (Examples.loginRequest ["acme"]) Examples.state0
   = Examples.loginHandler newCtx (Examples.loginRequest ["acme"])
       (mkState Examples.heap0 103
          ([] ++ [EvExtractHeaderToken (Examples.loginRequest ["acme"]);
                  EvVerify Background "eyJ"; EvClaims "eyJ";
                  EvNext newCtx (Examples.loginRequest ["acme"])])) /\
   GetUserClaims newCtx = Returned (Some Examples.bobClaims) /\
   (forall key, Key_eqb (Key_string ContextKeyUser) key = false ->
                Context_Value newCtx key = Context_Value Background key)) /\
  UnaryTokenInterceptor MoreExamples.middlewareExpired ["/grpc.health.v1.Health/Check"]
    Examples.loginHandler Background (Examples.loginRequest ["acme"]) Examples.state0
  = (Returned (None, Some (connect_NewError Connect.CodeUnauthenticated
                             (fmt_Errorf "invalid token: "
                                (errors_New "oidc: token is expired")))),
     mkState Examples.heap0 102
       ([] ++ [EvExtractHeaderToken (Examples.loginRequest ["acme"]);
               EvVerify Background "eyJ"])).
Proof.
  split.
  - apply (UnaryTokenInterceptor_guards_next MoreExamples.middlewareOk
             ["/grpc.health.v1.Health/Check"] Examples.loginHandler Background
             (Examples.loginRequest ["acme"]) Examples.state0
             "eyJ" None 101 "eyJ" None 102 Examples.bobClaims None 103).
    + cbn. intros [H | []]. discriminate H.
    + reflexivity.
    + reflexivity.
    + reflexivity.
  - apply (UnaryTokenInterceptor_guards_next MoreExamples.middlewareExpired
             ["/grpc.health.v1.Health/Check"] Examples.loginHandler Background
             (Examples.loginRequest ["acme"]) Examples.state0
             "eyJ" None 101 "eyJ" (Some (errors_New "oidc: token is expired")) 102
             Examples.bobClaims None 103).
    + cbn. intros [H | []]. discriminate H.
    + reflexivity.
    + reflexivity.
    + intros _ H. discriminate H.
Defined.

Lemma chain_reaches_handler_with_tenant_and_claims_witness :
  exists ctx2,
    UnaryTenantInterceptor
      (UnaryTokenInterceptor MoreExamples.middlewareOk ["/grpc.health.v1.Health/Check"]
         Examples.loginHandler)
      Background (Examples.loginRequest ["acme"]) Examples.state0
    = Examples.loginHandler ctx2 (Examples.loginRequest ["acme"])
        (mkState Examples.heap0 103
           ([] ++
            [EvNext (WithValue Background (Key_string XTenantKey) (Some (any_string "acme")))
               (Examples.loginRequest ["acme"]);
             EvExtractHeaderToken (Examples.loginRequest ["acme"]);
             EvVerify (WithValue Background (Key_string XTenantKey) (Some (any_string "acme")))
               "eyJ";
             EvClaims "eyJ";
             EvNext ctx2 (Examples.loginRequest ["acme"])])) /\
    (forall F, fst (GetTenant F ctx2) = ("acme", None)) /\
    GetUserClaims ctx2 = Returned (Some Examples.bobClaims).
Proof.
  apply (chain_reaches_handler_with_tenant_and_claims MoreExamples.middlewareOk
           ["/grpc.health.v1.Health/Check"] Examples.loginHandler Background
           (Examples.loginRequest ["acme"]) Examples.state0 "acme" [] "eyJ" 101 "eyJ" 102
           Examples.bobClaims 103).
  - vm_compute. reflexivity.
  - discriminate.
  - cbn. intros [H | []]. discriminate H.
  - reflexivity.
  - reflexivity.
  - reflexivity.
Defined.

Lemma chain_logs_missing_tenant_witness :
  exists h1 duration,
    LoggingUnaryInterceptor MoreExamples.middlewareOk
      (UnaryTenantInterceptor
         (UnaryTokenInterceptor MoreExamples.middlewareOk ["/grpc.health.v1.Health/Check"]
            Examples.loginHandler))
      Background Examples.noTenantRequest Examples.state0
    = (Returned (None, Some ErrMissingTenantHeader),
       mkState h1 100
         ([] ++
          [EvLog Zap.InfoLevel "gRPC request received"
             [Zap.String "method" "/auth.v1.AuthService/Login";
              Zap.Any "request" (Some (VPtr Examples.RequestT (Some 4%nat)))];
           EvNext Background Examples.noTenantRequest;
           EvLog Zap.ErrorLevel "gRPC request failed"
             [Zap.String "method" "/auth.v1.AuthService/Login";
              Zap.Error ErrMissingTenantHeader;
              Zap.Duration "duration" duration]])).
Proof.
  eexists.
  eapply (chain_logs_missing_tenant MoreExamples.middlewareOk
           ["/grpc.health.v1.Health/Check"] Examples.loginHandler Background
           Examples.noTenantRequest Examples.state0).
  - left. vm_compute. reflexivity.
  - vm_compute. reflexivity.
Defined.

Lemma LoggingUnaryInterceptor_panic_not_logged_witness :
  exists s2,
    LoggingUnaryInterceptor MoreExamples.middlewareOk MoreExamples.panickingHandler
      Background (Examples.loginRequest ["acme"]) Examples.state0
    = (Panicked "runtime error: index out of range", s2) /\
    trace s2
    = [EvLog Zap.InfoLevel "gRPC request received"
         [Zap.String "method" "/auth.v1.AuthService/Login";
          Zap.Any "request" (Some (VPtr Examples.RequestT (Some 4%nat)))];
       EvNext Background (Examples.loginRequest ["acme"])].
Proof.
  eexists. split.
  - eapply (LoggingUnaryInterceptor_panic_not_logged MoreExamples.middlewareOk
             MoreExamples.panickingHandler Background (Examples.loginRequest ["acme"])
             Examples.state0).
    + vm_compute. reflexivity.
    + reflexivity.
  - reflexivity.
Defined.

(** X22. On an exempt route the handler gets the tenant and no claims: with
    Tenant Interceptor around Token Interceptor and a context that held no
    claims, the handler runs without the authenticator having been
    consulted, [GetTenant] returns the tenant of the header there, and
    [GetUserClaims] panics. *)
Theorem chain_exempt_route_without_claims
    {W IDToken : Type} (middleware : @grpcAuthMiddleware W IDToken) routes
    (handler : @UnaryFunc W IDToken) ctx req (s : @State W IDToken) tenantID rest :
  Request_Header req !! "X-Tenant-Id" = Some (tenantID :: rest) ->
  tenantID <> "" ->
  In (Procedure (Request_Spec req)) routes ->
  Context_Value ctx (Key_string ContextKeyUser) = None ->
  exists ctx1,
    UnaryTenantInterceptor (UnaryTokenInterceptor middleware routes handler) ctx req s
    = handler ctx1 req
        (mkState (heap s) (world s) (trace s ++ [EvNext ctx1 req; EvNext ctx1 req])) /\
    (forall F, fst (GetTenant F ctx1) = (tenantID, None)) /\
    exists reason, GetUserClaims ctx1 = Panicked reason.
Proof.
  intros Hh Hne Hin Hnone. apply slices_Contains_In in Hin.
  exists (WithValue ctx (Key_string XTenantKey) (Some (any_string tenantID))).
  split; [| split].
  - unfold UnaryTenantInterceptor, Http.Header_Get. rewrite tenant_key_canonical, Hh.
    destruct (String.eqb_spec tenantID ""); [contradiction |].
    rewrite invoke_run. unfold UnaryTokenInterceptor. rewrite Hin.
    rewrite invoke_run. cbn [heap world trace]. now rewrite <- app_assoc.
  - intros F. unfold GetTenant. rewrite Value_WithValue_same.
    destruct (String.eqb_spec tenantID ""); [contradiction | reflexivity].
  - unfold GetUserClaims. rewrite Value_WithValue_other by reflexivity.
    rewrite Hnone. eauto.
Qed.

Lemma chain_exempt_route_without_claims_witness :
  exists ctx1,
    UnaryTenantInterceptor
      (UnaryTokenInterceptor MoreExamples.middlewareOk ["/auth.v1.AuthService/Login"]
         Examples.loginHandler)
      Background (Examples.loginRequest ["acme"]) Examples.state0
    = Examples.loginHandler ctx1 (Examples.loginRequest ["acme"])
        (mkState Examples.heap0 100
           ([] ++ [EvNext ctx1 (Examples.loginRequest ["acme"]);
                   EvNext ctx1 (Examples.loginRequest ["acme"])])) /\
    (forall F, fst (GetTenant F ctx1) = ("acme", None)) /\
    exists reason, GetUserClaims ctx1 = Panicked reason.
Proof.
  apply (chain_exempt_route_without_claims MoreExamples.middlewareOk
           ["/auth.v1.AuthService/Login"] Examples.loginHandler Background
           (Examples.loginRequest ["acme"]) Examples.state0 "acme" []).
  - vm_compute. reflexivity.
  - discriminate.
  - cbn. left. reflexivity.
  - reflexivity.
Defined.

(** ** The sanitizer, further *)

(** Induction on a value through the fields of its structs. *)
Lemma Value_struct_ind (P : Value -> Prop) :
  (forall v, Value_Kind v <> KStruct -> P v) ->
  (forall name fields, Forall (fun f => P (snd f)) fields -> P (VStruct name fields)) ->
  forall v, P v.
Proof.
  intros Hother Hstruct. fix IH 1.
  intros [b | n | bits | str | e t | e items | k e entries | d | name fields];
    try (apply Hother; cbn; discriminate).
  apply Hstruct. induction fields as [| [fn fv] fields IHf]; constructor.
  - apply IH.
  - exact IHf.
Qed.

(** A write into a cell allocated after [h0] leaves [h0] as it is. *)
Lemma store_field_extends (h0 fresh : list Value) (copied i : nat) x r h' :
  (length h0 <= copied)%nat ->
  store_field copied i x (h0 ++ fresh) = (r, h') ->
  exists fresh', h' = h0 ++ fresh'.
Proof.
  intros Hle. unfold store_field.
  destruct ((h0 ++ fresh) !! copied) as [[] |]; try (intros [= <- <-]; eauto).
  destruct (fields !! i) as [[fname y] |]; intros [= <- <-]; [| eauto].
  rewrite insert_app_r_alt by exact Hle. eauto.
Qed.

Lemma Value_Set_extends (h0 fresh : list Value) (copied i : nat) ft x r h' :
  (length h0 <= copied)%nat ->
  Value_Set copied i ft x (h0 ++ fresh) = (r, h') ->
  exists fresh', h' = h0 ++ fresh'.
Proof.
  intros Hle. unfold Value_Set, panic. destruct x as [x |]; [| intros [= <- <-]; eauto].
  destruct (GoType_eqb (TypeOf x) ft); [| intros [= <- <-]; eauto].
  now apply store_field_extends.
Qed.

Lemma sanitize_field_extends recur sf (h0 : list Value) (copied i : nat) fname value :
  (length h0 <= copied)%nat ->
  (forall fresh r h', recur value (h0 ++ fresh) = (r, h') -> exists fresh', h' = h0 ++ fresh') ->
  forall fresh r h',
    sanitize_field recur sf copied i fname value (h0 ++ fresh) = (r, h') ->
    exists fresh', h' = h0 ++ fresh'.
Proof.
  intros Hle Hrec fresh r h'. unfold sanitize_field, ret.
  destruct (negb (CanInterface fname)); [intros [= <- <-]; eauto |].
  destruct (sf !! strings_ToLower fname).
  - destruct (Kind_eqb (Type_Kind (TypeOf value)) KString).
    + unfold Value_SetString. now apply store_field_extends.
    + now apply Value_Set_extends.
  - destruct (Kind_eqb (Type_Kind (TypeOf value)) KStruct).
    + unfold bind. destruct (recur value (h0 ++ fresh)) as [[sanitized | reason] h1] eqn:Hr.
      * destruct (Hrec _ _ _ Hr) as [fresh1 ->]. now apply Value_Set_extends.
      * destruct (Hrec _ _ _ Hr) as [fresh1 ->]. intros [= <- <-]. eauto.
    + now apply Value_Set_extends.
Qed.

Lemma sanitize_loop_extends recur sf (h0 : list Value) (copied : nat) fields :
  (length h0 <= copied)%nat ->
  Forall (fun f => forall fresh r h', recur (snd f) (h0 ++ fresh) = (r, h') ->
                                      exists fresh', h' = h0 ++ fresh') fields ->
  forall (i : nat) fresh r h',
    sanitize_loop recur sf copied i fields (h0 ++ fresh) = (r, h') ->
    exists fresh', h' = h0 ++ fresh'.
Proof.
  intros Hle Hall. induction Hall as [| [fname value] fields Hf _ IH];
    intros i fresh r h'; cbn [sanitize_loop].
  - intros [= <- <-]. eauto.
  - unfold bind.
    destruct (sanitize_field recur sf copied i fname value (h0 ++ fresh))
      as [[[] | reason] h1] eqn:Hs;
      destruct (sanitize_field_extends recur sf h0 copied i fname value Hle Hf _ _ _ Hs)
        as [fresh1 ->].
    + apply IH.
    + intros [= <- <-]. eauto.
Qed.

Lemma sanitize_from_extends sf rv :
  forall v (h0 fresh : list Value) r h',
    sanitize_from sf v rv (h0 ++ fresh) = (r, h') -> exists fresh', h' = h0 ++ fresh'.
Proof.
  induction rv as [rv Hk | name fields IH] using Value_struct_ind; intros v h0 fresh r h'.
  - destruct rv; cbn in Hk; try congruence; cbn; intros [= <- <-]; eauto.
  - cbn [sanitize_from]. unfold bind at 1. unfold New.
    rewrite <- app_assoc. unfold bind.
    destruct (sanitize_loop _ sf _ 0%nat fields _) as [[[] | reason] h1] eqn:Hl;
      (eapply sanitize_loop_extends in Hl;
       [destruct Hl as [fresh1 ->]; intros [= <- <-]; eauto
       | rewrite length_app; lia
       | eapply Forall_impl; [exact IH |]; intros f Hf fresh2 r2 h2; apply Hf]).
Qed.

(** X16. [sanitize] never writes to memory that existed before the call:
    whatever the value, the set of sensitive names and the outcome, return
    or panic, the heap afterwards is the heap before followed by fresh
    cells, so every cell that existed, the input among them, holds what it
    held. *)
Theorem sanitize_never_overwrites (v : any) (sf : gmap string unit) (h : list Value) :
  exists fresh,
    snd (sanitize v sf h) = h ++ fresh /\
    forall l : nat, (l < length h)%nat -> snd (sanitize v sf h) !! l = h !! l.
Proof.
  assert (H : exists fresh, snd (sanitize v sf h) = h ++ fresh).
  { destruct (sanitize v sf h) as [r h'] eqn:Hs. cbn [snd].
    unfold sanitize in Hs.
    destruct v as [[b | n | bits | str | e [l |] | e items | k e entries | d | name fields] |];
      try (eapply (sanitize_from_extends sf _ _ h [] r h'); rewrite app_nil_r; exact Hs).
    - unfold bind, Elem in Hs. destruct (h !! l) as [rv |].
      + eapply (sanitize_from_extends sf rv _ h [] r h'). rewrite app_nil_r. exact Hs.
      + injection Hs as <- <-. exists []. now rewrite app_nil_r.
    - injection Hs as <- <-. exists []. now rewrite app_nil_r. }
  destruct H as [fresh H]. exists fresh. split; [exact H |].
  intros l Hl. rewrite H. now apply lookup_app_l.
Qed.

(** A struct none of whose exported, non-sensitive fields is a struct held
    by value has no field the loop recurses into. *)
Lemma flat_fields_not_recursed sf fields :
  (forall gname x, In (gname, x) fields -> IsExported gname = true ->
                   sf !! strings_ToLower gname = None -> Value_Kind x <> KStruct) ->
  forallb (fun f => negb (recursed_field sf f)) fields = true.
Proof.
  intros Hflat. apply forallb_forall. intros [gname x] Hin. apply negb_true_iff.
  unfold recursed_field. cbn [fst snd].
  destruct (IsExported gname) eqn:He; [| reflexivity].
  destruct (sf !! strings_ToLower gname) eqn:Hs; [reflexivity |].
  cbn. destruct (Kind_eqb (Value_Kind x) KStruct) eqn:Hk; [| reflexivity].
  apply Kind_eqb_eq in Hk. now destruct (Hflat gname x Hin He Hs).
Qed.

(** X17. On a struct with ASCII field names none of whose exported,
    non-sensitive fields is a struct held by value, [sanitize] returns a
    pointer to one fresh cell in which every exported field with a sensitive
    name is redacted, whatever the set of sensitive names: a string field
    holds ["[REDACTED]"], a field of any other type, a struct included, the
    zero value of its type. *)
Theorem sanitize_redacts_every_sensitive_field
    (sf : gmap string unit) (v : any) (h : list Value) name fields :
  (v = Some (VStruct name fields) \/
   exists e l, v = Some (VPtr e (Some l)) /\ h !! l = Some (VStruct name fields)) ->
  ascii_fields fields ->
  (forall gname x, In (gname, x) fields -> IsExported gname = true ->
                   sf !! strings_ToLower gname = None -> Value_Kind x <> KStruct) ->
  exists copy,
    sanitize v sf h
    = (Returned (Some (VPtr (TypeOf (VStruct name fields)) (Some (length h)))),
       h ++ [VStruct name copy]) /\
    forall (j : nat) gname x,
      fields !! j = Some (gname, x) -> IsExported gname = true ->
      is_Some (sf !! strings_ToLower gname) ->
      copy !! j = Some (gname, if Kind_eqb (Value_Kind x) KString
                               then VString REDACTED else Zero (TypeOf x)).
Proof.
  intros Hv _ Hflat.
  pose proof (flat_fields_not_recursed sf fields Hflat) as Hok.
  exists (List.map (redact_field sf) fields). split.
  - rewrite (sanitize_struct_input sf v h name fields Hv). now apply sanitize_from_copy.
  - intros j gname x Hj He [u Hs]. rewrite lookup_map, Hj. cbn [option_map].
    unfold redact_field, zero_field. cbn [fst snd]. rewrite He, Hs. cbn [negb].
    destruct (Kind_eqb (Value_Kind x) KString); reflexivity.
Qed.

Lemma sanitize_redacts_every_sensitive_field_witness :
  exists copy,
    sanitize (Some MoreExamples.credentials) sensitiveFields [VString "pem"]
    = (Returned (Some (VPtr (TypeOf MoreExamples.credentials) (Some 1%nat))),
       [VString "pem"] ++ [VStruct "Credentials" copy]) /\
    forall (j : nat) gname x,
      [("User", VString "bob"); ("Token", VString "s3cr3t"); ("ApiKey", VInt 42);
       ("Secret", VPtr TString (Some 0%nat)); ("Auth", VBool true); ("cache", VInt 9)] !! j
      = Some (gname, x) ->
      IsExported gname = true ->
      is_Some (sensitiveFields !! strings_ToLower gname) ->
      copy !! j = Some (gname, if Kind_eqb (Value_Kind x) KString
                               then VString REDACTED else Zero (TypeOf x)).
Proof.
  apply (sanitize_redacts_every_sensitive_field sensitiveFields
           (Some MoreExamples.credentials) [VString "pem"] "Credentials"
           [("User", VString "bob"); ("Token", VString "s3cr3t"); ("ApiKey", VInt 42);
            ("Secret", VPtr TString (Some 0%nat)); ("Auth", VBool true); ("cache", VInt 9)]).
  - left. reflexivity.
  - intros gname x [H | [H | [H | [H | [H | [H | []]]]]]];
      inversion H; subst; reflexivity.
  - intros gname x [H | [H | [H | [H | [H | [H | []]]]]]] _ _;
      inversion H; subst; cbn; discriminate.
Defined.

Lemma redact_field_type sf f : TypeOf (snd (redact_field sf f)) = TypeOf (snd f)
                               /\ fst (redact_field sf f) = fst f.
Proof.
  destruct f as [fname x]. unfold redact_field, zero_field. cbn [fst snd].
  destruct (IsExported fname); cbn [negb fst snd]; [| now rewrite TypeOf_Zero].
  destruct (sf !! strings_ToLower fname); [| now split].
  destruct (Kind_eqb (Value_Kind x) KString) eqn:Hk; cbn [fst snd].
  - apply Kind_eqb_eq in Hk. split; [| reflexivity].
    destruct x; cbn in Hk; try discriminate Hk. reflexivity.
  - now rewrite TypeOf_Zero.
Qed.

(** X18. The copy [sanitize] builds has the type of the struct it copies:
    the same fields, with the same names and types, in the same order, so
    that the pointer returned points to a value of the type it claims. *)
Theorem sanitize_copy_keeps_type
    (sf : gmap string unit) (v : any) (h : list Value) name fields r h' :
  (v = Some (VStruct name fields) \/
   exists e l, v = Some (VPtr e (Some l)) /\ h !! l = Some (VStruct name fields)) ->
  sanitize v sf h = (Returned r, h') ->
  exists copy,
    r = Some (VPtr (TypeOf (VStruct name fields)) (Some (length h))) /\
    h' !! length h = Some copy /\
    TypeOf copy = TypeOf (VStruct name fields).
Proof.
  intros Hv Hs.
  destruct (forallb (fun f => negb (recursed_field sf f)) fields) eqn:Hok.
  - rewrite (sanitize_struct_input sf v h name fields Hv) in Hs.
    rewrite (sanitize_from_copy sf v name fields h Hok) in Hs. injection Hs as <- <-.
    eexists. split; [reflexivity |]. split.
    + apply list_lookup_middle. reflexivity.
    + cbn. f_equal. rewrite List.map_map. apply List.map_ext.
      intros f. destruct (redact_field_type sf f) as [-> ->]. reflexivity.
  - exfalso.
    assert (Hex : existsb (recursed_field sf) fields = true).
    { clear -Hok. induction fields as [| f fields IH]; [discriminate |].
      cbn in *. destruct (recursed_field sf f); [reflexivity |]. cbn in Hok. now apply IH. }
    rewrite (sanitize_struct_input sf v h name fields Hv) in Hs.
    cbn [sanitize_from] in Hs. unfold bind at 1 in Hs. unfold New, bind in Hs.
    destruct (sanitize_loop_recursed_panics sf (length h) fields 0%nat
                (h ++ [Zero (TypeOf (VStruct name fields))]) Hex) as (reason & h1 & Hp).
    rewrite Hp in Hs. discriminate Hs.
Qed.

Lemma sanitize_copy_keeps_type_witness :
  exists copy,
    Some (VPtr (TypeOf MoreExamples.credentials) (Some 1%nat))
    = Some (VPtr (TypeOf MoreExamples.credentials) (Some (length [VString "pem"]))) /\
    [VString "pem";
     VStruct "Credentials"
       [("User", VString "bob"); ("Token", VString REDACTED); ("ApiKey", VInt 0);
        ("Secret", VPtr TString None); ("Auth", VBool false); ("cache", VInt 0)]]
      !! length [VString "pem"] = Some copy /\
    TypeOf copy = TypeOf MoreExamples.credentials.
Proof.
  apply (sanitize_copy_keeps_type sensitiveFields (Some MoreExamples.credentials)
           [VString "pem"] "Credentials"
           [("User", VString "bob"); ("Token", VString "s3cr3t"); ("ApiKey", VInt 42);
            ("Secret", VPtr TString (Some 0%nat)); ("Auth", VBool true); ("cache", VInt 9)]).
  - left. reflexivity.
  - vm_compute. reflexivity.
Defined.

Lemma lower_idempotent c : lower (lower c) = lower c.
Proof. destruct c as [[] [] [] [] [] [] [] []]; reflexivity. Qed.

Lemma strings_ToLower_idempotent s : strings_ToLower (strings_ToLower s) = strings_ToLower s.
Proof. induction s as [| c s IH]; cbn; [reflexivity |]. now rewrite lower_idempotent, IH. Qed.

Lemma sensitive_lookup (fname : string) :
  (In (strings_ToLower fname) ["password"; "token"; "secret"; "apikey"; "auth"] ->
   sensitiveFields !! strings_ToLower fname = Some tt) /\
  (~ In (strings_ToLower fname) ["password"; "token"; "secret"; "apikey"; "auth"] ->
   sensitiveFields !! strings_ToLower fname = None).
Proof.
  assert (Hdead : strings_ToLower fname <> "apiKey").
  { intros H. pose proof (strings_ToLower_idempotent fname) as Hi.
    rewrite H in Hi. discriminate Hi. }
  unfold sensitiveFields. set (k := strings_ToLower fname) in *.
  rewrite !lookup_insert, lookup_empty.
  repeat case_decide; subst; cbn; split; intros Hs;
    try reflexivity; try tauto; try congruence.
Qed.

(** X19. Which string fields [sanitizeRequest] redacts. On a struct with
    ASCII field names none of whose exported, non-sensitive fields is a
    struct held by value, an exported string field comes out as
    ["[REDACTED]"] when its name, in lower case, is [password], [token],
    [secret], [apikey] or [auth], and comes out as it was for every other
    name: the entry [apiKey] of the map adds nothing, since names are looked
    up in lower case. *)
Theorem sanitizeRequest_redacts_by_name
    (v : any) (h : list Value) name fields :
  (v = Some (VStruct name fields) \/
   exists e l, v = Some (VPtr e (Some l)) /\ h !! l = Some (VStruct name fields)) ->
  ascii_fields fields ->
  (forall gname x, In (gname, x) fields -> IsExported gname = true ->
                   sensitiveFields !! strings_ToLower gname = None ->
                   Value_Kind x <> KStruct) ->
  exists copy,
    sanitizeRequest v h
    = (Returned (Some (VPtr (TypeOf (VStruct name fields)) (Some (length h)))),
       h ++ [VStruct name copy]) /\
    forall (j : nat) gname str,
      fields !! j = Some (gname, VString str) -> IsExported gname = true ->
      (In (strings_ToLower gname) ["password"; "token"; "secret"; "apikey"; "auth"] ->
       copy !! j = Some (gname, VString REDACTED)) /\
      (~ In (strings_ToLower gname) ["password"; "token"; "secret"; "apikey"; "auth"] ->
       copy !! j = Some (gname, VString str)).
Proof.
  intros Hv _ Hflat.
  pose proof (flat_fields_not_recursed sensitiveFields fields Hflat) as Hok.
  exists (List.map (redact_field sensitiveFields) fields). split.
  - unfold sanitizeRequest. rewrite (sanitize_struct_input _ v h name fields Hv).
    now apply sanitize_from_copy.
  - intros j gname str Hj He. rewrite lookup_map, Hj. cbn [option_map].
    unfold redact_field. cbn [fst snd]. rewrite He. cbn [negb].
    destruct (sensitive_lookup gname) as [Hyes Hno]. split; intros Hin.
    + now rewrite (Hyes Hin).
    + now rewrite (Hno Hin).
Qed.

Lemma sanitizeRequest_redacts_by_name_witness :
  exists copy,
    sanitizeRequest (Some MoreExamples.apiCredentials) []
    = (Returned (Some (VPtr (TypeOf MoreExamples.apiCredentials) (Some 0%nat))),
       [VStruct "ApiCredentials" copy]) /\
    forall (j : nat) gname str,
      [("APIKEY", VString "k-1"); ("ApiKeyId", VString "id-7"); ("Auth", VString "basic")] !! j
      = Some (gname, VString str) ->
      IsExported gname = true ->
      (In (strings_ToLower gname) ["password"; "token"; "secret"; "apikey"; "auth"] ->
       copy !! j = Some (gname, VString REDACTED)) /\
      (~ In (strings_ToLower gname) ["password"; "token"; "secret"; "apikey"; "auth"] ->
       copy !! j = Some (gname, VString str)).
Proof.
  apply (sanitizeRequest_redacts_by_name (Some MoreExamples.apiCredentials) []
           "ApiCredentials"
           [("APIKEY", VString "k-1"); ("ApiKeyId", VString "id-7"); ("Auth", VString "basic")]).
  - left. reflexivity.
  - intros gname x [H | [H | [H | []]]]; inversion H; subst; reflexivity.
  - intros gname x [H | [H | [H | []]]] _ _; inversion H; subst; cbn; discriminate.
Defined.

(** X21. On a struct with ASCII field names, given by value or through a
    pointer, that has an exported, non-sensitive field of struct kind,
    [sanitize] panics: the recursive call returns a pointer, which cannot be
    set into the struct-typed field. *)
Theorem sanitize_panics_on_nested_struct
    (sf : gmap string unit) (v : any) (h : list Value) name fields (j : nat) gname x :
  (v = Some (VStruct name fields) \/
   exists e l, v = Some (VPtr e (Some l)) /\ h !! l = Some (VStruct name fields)) ->
  ascii_fields fields ->
  fields !! j = Some (gname, x) ->
  IsExported gname = true ->
  sf !! strings_ToLower gname = None ->
  Value_Kind x = KStruct ->
  exists reason h', sanitize v sf h = (Panicked reason, h').
Proof.
  intros Hv _ Hj He Hs Hk.
  apply (sanitize_nested_struct_panics sf v h name fields Hv).
  apply existsb_exists. exists (gname, x). split.
  - apply list_elem_of_In, list_elem_of_lookup. eauto.
  - unfold recursed_field. cbn [fst snd]. rewrite He, Hs. cbn.
    now apply Kind_eqb_eq.
Qed.

Lemma sanitize_panics_on_nested_struct_witness :
  exists reason h', sanitize (Some Examples.nestedByValue) sensitiveFields [] = (Panicked reason, h').
Proof.
  apply (sanitize_panics_on_nested_struct sensitiveFields (Some Examples.nestedByValue) []
           "Outer"
           [("Id", VInt 1); ("Inner", VStruct "Inner" [("Password", VString "hunter2")])]
           1%nat "Inner" (VStruct "Inner" [("Password", VString "hunter2")])).
  - left. reflexivity.
  - intros gname x [H | [H | []]]; inversion H; subst; reflexivity.
  - reflexivity.
  - reflexivity.
  - reflexivity.
  - reflexivity.
Defined.

Lemma sanitize_pass_through_witness :
  sanitize None sensitiveFields Examples.heap0 = (Returned None, Examples.heap0) /\
  sanitize (Some (VString "ping")) sensitiveFields Examples.heap0
  = (Returned (Some (VString "ping")), Examples.heap0) /\
  sanitize (Some (VPtr Examples.RequestT None)) sensitiveFields Examples.heap0
  = (Returned (Some (VPtr Examples.RequestT None)), Examples.heap0) /\
  sanitize (Some (VPtr TInt (Some 4%nat))) sensitiveFields (Examples.heap0 ++ [VInt 1])
  = (Returned (Some (VPtr TInt (Some 4%nat))), Examples.heap0 ++ [VInt 1]).
Proof.
  split; [| split; [| split]].
  - apply (proj1 (sanitize_pass_through sensitiveFields Examples.heap0)).
  - apply (proj1 (proj2 (sanitize_pass_through sensitiveFields Examples.heap0)));
      cbn; discriminate.
  - apply (proj1 (proj2 (proj2 (sanitize_pass_through sensitiveFields Examples.heap0)))).
  - apply (proj2 (proj2 (proj2 (sanitize_pass_through sensitiveFields
                                  (Examples.heap0 ++ [VInt 1]))))
             TInt 4%nat (VInt 1)).
    + reflexivity.
    + cbn. discriminate.
Defined.

